(** * Vapourizer: crawl, extract, stream to markdown

    A shallow embedding of the orchestration layer of the repository
    (main.py, crawlers/web_crawler.py, util/file_writer.py,
    util/constants.py, llm/agent.py) and the properties of its
    specification.

    The external collaborators (the crawl engine, the LLM provider, the
    operating system's files and clock) are fields of a [World] record:
    every theorem holds for all of their behaviours.  Python's mutable
    state (the file system, stdout, the order of the external calls) is
    threaded explicitly through a small state-and-exception monad. *)

From Stdlib Require Import Ascii DecimalString DecimalNat Sorted.
From stdpp Require Import gmap strings list fin_maps.

(** ** Python values, exceptions and strings *)

Module Py.

(** The exception classes the program names or can meet.  All of them
    derive from Python's [Exception]; an [except Exception] clause
    catches every value of this type.  What does not derive from
    [Exception] ([KeyboardInterrupt], [asyncio.CancelledError]) passes
    through every [except Exception] of the program and ends the
    process: such an interruption is not a value of this type, and no
    result below speaks of a run that is interrupted. *)
Inductive exn_class :=
| Exception
| LLMConfigError
| JSONDecodeError
| TypeError
| OSError.

Record exn := Raised { exn_cls : exn_class; exn_msg : string }.

(** [str(e)] *)
Definition str_exn (e : exn) : string := exn_msg e.

Inductive result (A : Type) :=
| Ok (a : A)
| Raise (e : exn).
Arguments Ok {A} a.
Arguments Raise {A} e.

Definition is_ok {A} (r : result A) : bool :=
  match r with Ok _ => true | Raise _ => false end.

(** The newline character, [\n] in the source. *)
Definition nl : string := String (Ascii.ascii_of_nat 10) EmptyString.

(** [str(n)] for a non-negative int, as an f-string prints [len(...)]
    and the loop counter. *)
Definition str_nat (n : nat) : string :=
  NilZero.string_of_uint (Nat.to_uint n).

(** [str(z)] for an int. *)
Definition str_int (z : Z) : string :=
  NilZero.string_of_int (Z.to_int z).

(** [str(b)] for a bool. *)
Definition str_bool (b : bool) : string :=
  if b then "True" else "False".

(** Truth value of an [Optional[str]]: [None] and the empty string are
    falsy. *)
Definition truthy (o : option string) : bool :=
  match o with
  | Some (String _ _) => true
  | Some EmptyString => false
  | None => false
  end.

(** [s * n] on strings. *)
Fixpoint str_repeat (s : string) (n : nat) : string :=
  match n with
  | O => EmptyString
  | S k => s +:+ str_repeat s k
  end.

(** [s.zfill(width)] on a string of digits: what [strftime] does for
    its zero-padded fields. *)
Definition zfill (width : nat) (s : string) : string :=
  str_repeat "0" (width - String.length s) +:+ s.

(** [sub in s] on strings. *)
Fixpoint str_contains (sub s : string) : bool :=
  String.prefix sub s ||
  match s with
  | EmptyString => false
  | String _ rest => str_contains sub rest
  end.

(** [datetime.now()]: the fields [strftime] reads. *)
Record datetime := {
  year : nat; month : nat; day : nat;
  hour : nat; minute : nat; second : nat
}.

(** [strftime("%Y%m%d_%H%M%S")] *)
Definition strftime_compact (t : datetime) : string :=
  zfill 4 (str_nat (year t)) +:+ zfill 2 (str_nat (month t)) +:+
  zfill 2 (str_nat (day t)) +:+ "_" +:+
  zfill 2 (str_nat (hour t)) +:+ zfill 2 (str_nat (minute t)) +:+
  zfill 2 (str_nat (second t)).

(** [strftime("%Y-%m-%d %H:%M:%S")] *)
Definition strftime_iso (t : datetime) : string :=
  zfill 4 (str_nat (year t)) +:+ "-" +:+ zfill 2 (str_nat (month t)) +:+
  "-" +:+ zfill 2 (str_nat (day t)) +:+ " " +:+
  zfill 2 (str_nat (hour t)) +:+ ":" +:+ zfill 2 (str_nat (minute t)) +:+
  ":" +:+ zfill 2 (str_nat (second t)).

(** JSON values as [json.load] returns them. A [dict] is kept as the
    list of its items. *)
#[warnings="-register-all"]
Inductive json :=
| JNull
| JBool (b : bool)
| JInt (n : Z)
| JFloat (repr : string)
| JStr (s : string)
| JList (items : list json)
| JDict (items : list (string * json)).

(** The name Python prints for the type of a value. *)
Definition type_name (v : json) : string :=
  match v with
  | JNull => "NoneType"
  | JBool _ => "bool"
  | JInt _ => "int"
  | JFloat _ => "float"
  | JStr _ => "str"
  | JList _ => "list"
  | JDict _ => "dict"
  end.

(** [key in v] for a string [key]: key membership for a dict, element
    membership for a list, substring test for a string, and a
    [TypeError] for the values that are no containers. *)
Definition contains (key : string) (v : json) : result bool :=
  match v with
  | JDict items => Ok (existsb (fun kv => String.eqb (fst kv) key) items)
  | JList items =>
      Ok (existsb (fun x => match x with
                            | JStr s => String.eqb s key
                            | _ => false
                            end) items)
  | JStr s => Ok (str_contains key s)
  | _ => Raise (Raised TypeError
                  ("argument of type '" +:+ type_name v +:+ "' is not iterable"))
  end.

(** [repr] of a list of strings, as an f-string prints it. *)
Definition repr_str (s : string) : string := "'" +:+ s +:+ "'".
Definition repr_str_list (l : list string) : string :=
  "[" +:+ String.concat ", " (map repr_str l) +:+ "]".

End Py.
Import Py.

(** ** util/constants.py *)

Definition URL_PATTERNS : list string :=
  ["*react*"; "*langgraph*"; "*pydantic*"; "*fastmcp*"].

Definition ALLOWED_DOMAINS : list string :=
  ["ai.pydantic.dev"; "langchain-ai.github.io";
   "digitaltoolkit.livingdesign.walmart.com"; "gofastmcp.com"].

Definition ALLOWED_CONTENT_TYPES : list string := ["text/html"].

(** ** The crawl engine's configuration objects (crawl4ai)

    The objects [_create_crawler_config] builds, as the data their
    constructors receive. *)

Module crawl4ai.

Inductive url_filter :=
| URLPatternFilter (patterns : list string)
| DomainFilter (allowed_domains : list string)
| ContentTypeFilter (allowed_types : list string).

Definition FilterChain := list url_filter.

Record BFSDeepCrawlStrategy := {
  max_depth : Z;
  include_external : bool;
  filter_chain : FilterChain
}.

Inductive scraping := LXMLWebScrapingStrategy.

Record CrawlerRunConfig := {
  deep_crawl_strategy : BFSDeepCrawlStrategy;
  scraping_strategy : scraping;
  verbose : bool
}.

(** A page of the crawl, as the engine returns it. *)
Record CrawlResult := {
  url : string;
  markdown : string;
  depth : nat;
  status_code : option Z
}.

Section Admission.

(** What one filter answers for a candidate link is the engine's
    business: any answer is allowed here. *)
Context {candidate : Type} (accepts : url_filter -> candidate -> bool).

(** The engine applies the filters of a chain in the order of the list
    and stops at the first one that rejects the candidate. The result
    is that filter, or [None] when the candidate is admitted. *)
Fixpoint first_rejection (chain : FilterChain) (c : candidate)
  : option url_filter :=
  match chain with
  | [] => None
  | f :: rest => if accepts f c then first_rejection rest c else Some f
  end.

Definition admit_link (chain : FilterChain) (c : candidate) : bool :=
  match first_rejection chain c with
  | None => true
  | Some _ => false
  end.

End Admission.

End crawl4ai.

(** ** The world around the program and the program's state *)

(** What the configuration file [/etc/secrets/.json] offers to
    [load_llm_config]: it does not exist; it exists and [open] or the
    read raises; it is read and [json.load] rejects its text; or
    [json.load] returns a value. *)
Inductive config_source :=
| CfgAbsent
| CfgUnreadable (e : exn)
| CfgInvalidJSON (msg : string)
| CfgJSON (v : json).

(** The external collaborators. [arun] is the crawl engine
    ([AsyncWebCrawler().arun]); [agent_run n prompt] is the provider's
    answer to the [n]-th call of [agent.run] (calls counted from 0);
    [io_fault n] tells whether the [n]-th system call on the file system
    raises; [now n] is the [n]-th reading of the clock; [build_agent]
    stands for the construction of the HTTP client, the provider, the
    model and the agent in [create_agent]. *)
Record World := {
  arun : string -> crawl4ai.CrawlerRunConfig -> result (list crawl4ai.CrawlResult);
  agent_run : nat -> string -> result string;
  io_fault : nat -> option exn;
  now : nat -> datetime;
  config_file : config_source;
  build_agent : json -> result unit
}.

Inductive mode := ModeW | ModeA.

(** What the process does to the outside, in order. *)
Inductive event :=
| EvPrint (line : string)
| EvLog (level msg : string)
| EvCrawl (target : string)
| EvAgentRun (prompt : string)
| EvMkdir (dir : string)
| EvOpen (path : string) (m : mode)
| EvWrite (path data : string)
| EvFlush (path : string)
| EvClose (path : string).

(** [files] holds what is on disk; [buffers] holds, for each open file,
    what was written and not yet flushed. *)
Record State := {
  files : gmap string string;
  dirs : gset string;
  buffers : gmap string string;
  trace : list event;
  io_count : nat;
  agent_calls : nat;
  clock_reads : nat
}.

Definition emit (ev : event) (st : State) : State :=
  {| files := files st; dirs := dirs st; buffers := buffers st;
     trace := trace st ++ [ev]; io_count := io_count st;
     agent_calls := agent_calls st; clock_reads := clock_reads st |}.

Definition tick_io (st : State) : State :=
  {| files := files st; dirs := dirs st; buffers := buffers st;
     trace := trace st; io_count := S (io_count st);
     agent_calls := agent_calls st; clock_reads := clock_reads st |}.

Definition tick_agent (st : State) : State :=
  {| files := files st; dirs := dirs st; buffers := buffers st;
     trace := trace st; io_count := io_count st;
     agent_calls := S (agent_calls st); clock_reads := clock_reads st |}.

Definition tick_clock (st : State) : State :=
  {| files := files st; dirs := dirs st; buffers := buffers st;
     trace := trace st; io_count := io_count st;
     agent_calls := agent_calls st; clock_reads := S (clock_reads st) |}.

Definition set_disk (fs bs : gmap string string) (st : State) : State :=
  {| files := fs; dirs := dirs st; buffers := bs;
     trace := trace st; io_count := io_count st;
     agent_calls := agent_calls st; clock_reads := clock_reads st |}.

Definition set_dirs (ds : gset string) (st : State) : State :=
  {| files := files st; dirs := ds; buffers := buffers st;
     trace := trace st; io_count := io_count st;
     agent_calls := agent_calls st; clock_reads := clock_reads st |}.

(** The content of a file, empty when there is none. *)
Definition content (m : gmap string string) (path : string) : string :=
  default EmptyString (m !! path).

(** ** The monad: state, and exceptions that keep the state *)

Definition M (A : Type) : Type := State -> result A * State.

Definition ret {A} (a : A) : M A := fun st => (Ok a, st).

Definition raise {A} (e : exn) : M A := fun st => (Raise e, st).

Definition bind {A B} (m : M A) (k : A -> M B) : M B :=
  fun st =>
    match m st with
    | (Ok a, st') => k a st'
    | (Raise e, st') => (Raise e, st')
    end.

(** [try: m / except Exception as e: h e] *)
Definition try_except {A} (m : M A) (h : exn -> M A) : M A :=
  fun st =>
    match m st with
    | (Ok a, st') => (Ok a, st')
    | (Raise e, st') => h e st'
    end.

Notation "'let!' x ':=' m 'in' k" := (bind m (fun x => k))
  (at level 10, x pattern, m at level 100, k at level 200).

Notation "m ';;' k" := (bind m (fun _ => k))
  (at level 100, k at level 200, right associativity).

Definition print (line : string) : M unit :=
  fun st => (Ok tt, emit (EvPrint line) st).

Definition logger (level msg : string) : M unit :=
  fun st => (Ok tt, emit (EvLog level msg) st).

Section Program.

Context (w : World).

(** ** The operating system: files and the clock *)

(** A system call on the file system: it is recorded, it raises when the
    world says so, and otherwise has its effect. *)
Definition sys_call (ev : event) (effect : State -> State) : M unit :=
  fun st =>
    let st1 := tick_io (emit ev st) in
    match io_fault w (io_count st) with
    | Some e => (Raise e, st1)
    | None => (Ok tt, effect st1)
    end.

(** [Path.mkdir(parents=True, exist_ok=True)] *)
Definition mkdir_effect (dir : string) (st : State) : State :=
  set_dirs ({[dir]} ∪ dirs st) st.

Definition mkdir_parents (dir : string) : M unit :=
  sys_call (EvMkdir dir) (mkdir_effect dir).

(** [open(path, 'w')] creates or truncates the file; [open(path, 'a')]
    creates it when it does not exist and keeps its content otherwise.
    The handle is the path; its buffer starts empty. *)
Definition open_effect (path : string) (m : mode) (st : State) : State :=
  set_disk
    match m with
    | ModeW => <[path := EmptyString]> (files st)
    | ModeA => <[path := content (files st) path]> (files st)
    end
    (<[path := EmptyString]> (buffers st))
    st.

Definition open_file (path : string) (m : mode) : M string :=
  sys_call (EvOpen path m) (open_effect path m) ;; ret path.

(** [f.write(data)] goes to the buffer of the handle. *)
Definition write_effect (f data : string) (st : State) : State :=
  set_disk (files st)
           (<[f := content (buffers st) f +:+ data]> (buffers st)) st.

Definition f_write (f data : string) : M unit :=
  sys_call (EvWrite f data) (write_effect f data).

(** Flushing moves the buffer to the end of the file on disk. *)
Definition flush_effect (f : string) (st : State) : State :=
  set_disk (<[f := content (files st) f +:+ content (buffers st) f]> (files st))
           (<[f := EmptyString]> (buffers st)) st.

(** [f.flush()] *)
Definition f_flush (f : string) : M unit :=
  sys_call (EvFlush f) (flush_effect f).

(** Closing flushes what is left and gives the handle back. *)
Definition f_close (f : string) (st : State) : State :=
  let st1 := flush_effect f (emit (EvClose f) st) in
  set_disk (files st1) (delete f (buffers st1)) st1.

(** [with open(path, mode) as f: body f]: the file is closed on the way
    out, also when the body raises. *)
Definition with_open {A} (path : string) (m : mode) (body : string -> M A)
  : M A :=
  let! f := open_file path m in
  fun st => let (r, st') := body f st in (r, f_close f st').

(** [datetime.now()] *)
Definition datetime_now : M datetime :=
  fun st => (Ok (now w (clock_reads st)), tick_clock st).

(** ** util/file_writer.py *)

Record FileWriter := { output_dir : string }.

(** [self.output_dir / file_name] *)
Definition path_join (dir file_name : string) : string :=
  dir +:+ "/" +:+ file_name.

Definition _ensure_output_directory (self : FileWriter) : M unit :=
  try_except (mkdir_parents (output_dir self))
    (fun e => raise (Raised Exception
       ("Failed to create output directory " +:+ output_dir self +:+ ": "
          +:+ str_exn e))).

(** [FileWriter(output_dir)] *)
Definition FileWriter_init (output_dir : string) : M FileWriter :=
  let self := {| output_dir := output_dir |} in
  _ensure_output_directory self ;; ret self.

(** [c.isalnum()], on the ASCII letters and digits. *)
Definition isalnum (c : ascii) : bool :=
  let n := nat_of_ascii c in
  ((48 <=? n)%nat && (n <=? 57)%nat) || ((65 <=? n)%nat && (n <=? 90)%nat)
  || ((97 <=? n)%nat && (n <=? 122)%nat).

Definition is_space (c : ascii) : bool := Ascii.eqb c " "%char.

(** The filter of the generator expression in [_generate_filename]. *)
Definition keep_char (c : ascii) : bool :=
  isalnum c || is_space c || Ascii.eqb c "-"%char || Ascii.eqb c "_"%char.

Fixpoint lstrip (l : list ascii) : list ascii :=
  match l with
  | c :: rest => if is_space c then lstrip rest else l
  | [] => []
  end.

(** [s.rstrip()] on a string whose only blanks are spaces. *)
Definition rstrip (l : list ascii) : list ascii := rev (lstrip (rev l)).

Definition lower_char (c : ascii) : ascii :=
  let n := nat_of_ascii c in
  if (65 <=? n)%nat && (n <=? 90)%nat then ascii_of_nat (n + 32) else c.

Definition sanitize (base_name : string) : string :=
  let kept := rstrip (List.filter keep_char (String.list_ascii_of_string base_name)) in
  String.string_of_list_ascii
    (map (fun c => lower_char (if is_space c then "_"%char else c)) kept).

Definition _generate_filename (self : FileWriter) (base_name : string)
    (extension : string) (timestamp : bool) : M string :=
  let sanitized_name := sanitize base_name in
  if timestamp then
    let! t := datetime_now in
    ret (sanitized_name +:+ "_" +:+ strftime_compact t +:+ extension)
  else
    ret (sanitized_name +:+ extension).

(** The header [initialize_streaming_markdown] builds, for a truthy
    title and the clock reading [t]. *)
Definition header_for (title : string) (t : datetime) : string :=
  ("# " +:+ title +:+ nl +:+ nl) +:+
  ("*Generated on: " +:+ strftime_iso t +:+ "*" +:+ nl +:+ nl) +:+
  ("---" +:+ nl +:+ nl).

Definition initialize_streaming_markdown (self : FileWriter)
    (base_filename : string) (title : option string) (timestamp : bool)
  : M string :=
  try_except
    (let! file_name := _generate_filename self base_filename ".md" timestamp in
     let file_path := path_join (output_dir self) file_name in
     let! header_content :=
       match title with
       | Some (String c s) =>
           let! t := datetime_now in ret (header_for (String c s) t)
       | _ => ret EmptyString
       end in
     with_open file_path ModeW (fun f => f_write f header_content) ;;
     ret file_path)
    (fun e => raise (Raised Exception
       ("Failed to initialize streaming markdown file: " +:+ str_exn e))).

(** The text [append_to_markdown] writes. *)
Definition append_content (content : string) (section_title : option string)
  : string :=
  (if truthy section_title
   then "## " +:+ default EmptyString section_title +:+ nl +:+ nl
   else EmptyString)
  +:+ (content +:+ nl +:+ nl).

Definition append_to_markdown (self : FileWriter) (file_path : string)
    (content : string) (section_title : option string) : M unit :=
  try_except
    (with_open file_path ModeA (fun f =>
       f_write f (append_content content section_title) ;;
       f_flush f))
    (fun e => raise (Raised Exception
       ("Failed to append to markdown file: " +:+ str_exn e))).

(** ** crawlers/web_crawler.py *)

Record WebCrawler := {
  max_depth : Z;
  include_external : bool;
  verbose : bool;
  _config : crawl4ai.CrawlerRunConfig
}.

Definition _create_crawler_config (max_depth : Z) (include_external : bool)
    (verbose : bool) : crawl4ai.CrawlerRunConfig :=
  let filter_chain :=
    [crawl4ai.URLPatternFilter URL_PATTERNS;
     crawl4ai.DomainFilter ALLOWED_DOMAINS;
     crawl4ai.ContentTypeFilter ALLOWED_CONTENT_TYPES] in
  {| crawl4ai.deep_crawl_strategy :=
       {| crawl4ai.max_depth := max_depth;
          crawl4ai.include_external := include_external;
          crawl4ai.filter_chain := filter_chain |};
     crawl4ai.scraping_strategy := crawl4ai.LXMLWebScrapingStrategy;
     crawl4ai.verbose := verbose |}.

(** [WebCrawler(max_depth, include_external, verbose)] *)
Definition WebCrawler_init (max_depth : Z) (include_external verbose : bool)
  : WebCrawler :=
  {| max_depth := max_depth;
     include_external := include_external;
     verbose := verbose;
     _config := _create_crawler_config max_depth include_external verbose |}.

Definition crawl (self : WebCrawler) (target : string)
  : M (list crawl4ai.CrawlResult) :=
  try_except
    (fun st => (arun w target (_config self), emit (EvCrawl target) st))
    (fun e => raise (Raised Exception
       ("Failed to crawl " +:+ target +:+ ": " +:+ str_exn e))).

Definition get_config_summary (self : WebCrawler) : list (string * string) :=
  [("max_depth", str_int (max_depth self));
   ("include_external", str_bool (include_external self));
   ("verbose", str_bool (verbose self));
   ("strategy", "BFSDeepCrawlStrategy");
   ("scraping_strategy", "LXMLWebScrapingStrategy")].

(** ** llm/agent.py *)

Definition CONFIG_PATH : string := "/etc/secrets/.json".

Record Agent := { model_name : string; retries : nat }.

(** [[field for field in required_fields if field not in config]] *)
Fixpoint missing_among (required_fields : list string) (config : json)
  : result (list string) :=
  match required_fields with
  | [] => Ok []
  | field :: rest =>
      match contains field config with
      | Raise e => Raise e
      | Ok present =>
          match missing_among rest config with
          | Raise e => Raise e
          | Ok others => Ok (if present then others else field :: others)
          end
      end
  end.

(** [with open(CONFIG_PATH) as f: config = json.load(f)], once the file
    is known to exist. *)
Definition read_config : M json :=
  match config_file w with
  | CfgAbsent =>
      raise (Raised OSError ("No such file or directory: " +:+ CONFIG_PATH))
  | CfgUnreadable e => raise e
  | CfgInvalidJSON msg => raise (Raised JSONDecodeError msg)
  | CfgJSON v => ret v
  end.

Definition load_llm_config : M json :=
  try_except
    (match config_file w with
     | CfgAbsent =>
         raise (Raised LLMConfigError
                  ("Configuration file not found: " +:+ CONFIG_PATH))
     | _ => ret tt
     end ;;
     let! config := read_config in
     let required_fields := ["base_url"; "api_key"] in
     let! missing_fields :=
       (fun st => (missing_among required_fields config, st)) in
     match missing_fields with
     | _ :: _ =>
         raise (Raised LLMConfigError
                  ("Missing required configuration fields: "
                     +:+ repr_str_list missing_fields))
     | [] => ret tt
     end ;;
     logger "INFO" "LLM configuration loaded successfully" ;;
     ret config)
    (fun e =>
       match exn_cls e with
       | JSONDecodeError =>
           raise (Raised LLMConfigError
                    ("Invalid JSON in configuration file: " +:+ str_exn e))
       | _ =>
           raise (Raised LLMConfigError
                    ("Failed to load configuration: " +:+ str_exn e))
       end).

(** [create_agent]. What follows the loading of the configuration
    (the HTTP client of [create_http_client], the Anthropic client, the
    provider, the model and the agent) is the one step [build_agent];
    the lines [create_http_client] logs on the way are not in the
    trace. *)
Definition create_agent : M Agent :=
  try_except
    (let! config := load_llm_config in
     (fun st => (build_agent w config, st)) ;;
     logger "INFO" "LLM agent created successfully" ;;
     ret {| model_name := "claude-sonnet-4"; retries := 3 |})
    (fun e => raise (Raised LLMConfigError
       ("Failed to create agent: " +:+ str_exn e))).

(** The module's last statement, run when [main.py] imports it:
    [try: agent = create_agent() / except LLMConfigError as e: log; raise].
    [create_agent] raises nothing but [LLMConfigError]. *)
Definition import_llm_agent : M Agent :=
  try_except create_agent
    (fun e =>
       match exn_cls e with
       | LLMConfigError =>
           logger "ERROR" ("Failed to initialize LLM agent: " +:+ str_exn e) ;;
           raise e
       | _ => raise e
       end).

(** [await agent.run(prompt)], and [.output] of what it returns. *)
Definition agent_run_output (agent : Agent) (prompt : string) : M string :=
  fun st =>
    (agent_run w (agent_calls st) prompt,
     tick_agent (emit (EvAgentRun prompt) st)).

(** ** main.py *)

(** How a run ends: the [try] body of [main] ran to its end, or its
    [except] clause took over. *)
Inductive ending := completed | failed.
Inductive run_state := Done (e : ending).

Definition target_url : string :=
  "https://digitaltoolkit.livingdesign.walmart.com/develop/react/".

(** The f-string handed to [agent.run]. *)
Definition extraction_prompt (result : crawl4ai.CrawlResult) : string :=
  "
                    Consider the markdown attached. You must extract
                    useful information from it and return as formatted
                    markdown.

                    " +:+ crawl4ai.markdown result +:+ "
                ".

Definition section_title_of (i : nat) (result : crawl4ai.CrawlResult)
  : string :=
  "Page " +:+ str_nat i +:+ ": " +:+ crawl4ai.url result.

Definition extracting_line (result : crawl4ai.CrawlResult) : string :=
  nl +:+ "🤖 >> Extracting information from " +:+ crawl4ai.url result.

Definition extracted_line (result : crawl4ai.CrawlResult) : string :=
  nl +:+ "🤖 >> Extracted information from " +:+ crawl4ai.url result.

Definition extraction_error_line (result : crawl4ai.CrawlResult) (e : exn)
  : string :=
  "❌ Error extracting information from " +:+ crawl4ai.url result +:+ ": "
    +:+ str_exn e.

Definition appended_line (result : crawl4ai.CrawlResult) : string :=
  "✅ >> Appended results for " +:+ crawl4ai.url result
    +:+ " to markdown file".

(** The [for i, result in enumerate(crawl_results, 1)] loop. The inner
    [try] gives [Some output], its [except] clause (print and
    [continue]) gives [None]. *)
Fixpoint process_results (agent : Agent) (file_writer : FileWriter)
    (output_path : string) (i : nat)
    (crawl_results : list crawl4ai.CrawlResult) : M unit :=
  match crawl_results with
  | [] => ret tt
  | result :: rest =>
      print (extracting_line result) ;;
      let! extraction :=
        try_except
          (let! output := agent_run_output agent (extraction_prompt result) in
           print (extracted_line result) ;;
           ret (Some output))
          (fun e =>
             print (extraction_error_line result e) ;;
             ret None) in
      match extraction with
      | None => process_results agent file_writer output_path (S i) rest
      | Some output =>
          let section_title := section_title_of i result in
          append_to_markdown file_writer output_path output
            (Some section_title) ;;
          print (appended_line result) ;;
          process_results agent file_writer output_path (S i) rest
      end
  end.

(** What [main] prints once the loop is over. *)
Definition completion_report (output_path : string) : list string :=
  [nl +:+ "✅ Crawl completed successfully!";
   "📄 All results saved to: " +:+ output_path].

Fixpoint print_all (lines : list string) : M unit :=
  match lines with
  | [] => ret tt
  | line :: rest => print line ;; print_all rest
  end.

Definition results_title (crawl_results : list crawl4ai.CrawlResult)
  : string :=
  "Web Crawl Results - " +:+ str_nat (length crawl_results) +:+ " pages".

Definition crawled_line (crawl_results : list crawl4ai.CrawlResult)
  : string :=
  "Successfully crawled " +:+ str_nat (length crawl_results) +:+ " pages".

Definition main (agent : Agent) : M run_state :=
  let crawler := WebCrawler_init 2 true true in
  print "Web Crawler Configuration:" ;;
  print_all (map (fun kv => "  " +:+ fst kv +:+ ": " +:+ snd kv)
               (get_config_summary crawler)) ;;
  print EmptyString ;;
  print ("Target URL: " +:+ target_url) ;;
  print (str_repeat "=" 60) ;;
  try_except
    (print ("Starting crawl of: " +:+ target_url) ;;
     let! crawl_results := crawl crawler target_url in
     print (crawled_line crawl_results) ;;
     let! file_writer := FileWriter_init "out" in
     let! output_path :=
       initialize_streaming_markdown file_writer "walmart_design_toolkit"
         (Some (results_title crawl_results)) true in
     print ("📄 Streaming results to: " +:+ output_path) ;;
     process_results agent file_writer output_path 1 crawl_results ;;
     print_all (completion_report output_path) ;;
     ret (Done completed))
    (fun e =>
       print ("❌ Error during crawl: " +:+ str_exn e) ;;
       ret (Done failed)).

(** [python main.py]: the imports run [llm/agent.py], whose exception
    nobody catches; then [asyncio.run(main())]. *)
Definition process : M run_state :=
  let! agent := import_llm_agent in
  main agent.

End Program.

(** A state before the process has done anything. *)
Definition initial (fs : gmap string string) (ds : gset string) : State :=
  {| files := fs; dirs := ds; buffers := ∅; trace := [];
     io_count := 0; agent_calls := 0; clock_reads := 0 |}.

(** ** Vocabulary of the specification *)

(** No system call on the file system raises. *)
Definition no_faults (w : World) : Prop := ∀ n, io_fault w n = None.

(** A section of the artifact: the 1-based position of its page in the
    crawl, the page, and what the extraction returned for it. *)
Record section := {
  sec_index : nat;
  sec_page : crawl4ai.CrawlResult;
  sec_output : string
}.

(** The pages whose extraction succeeds, in the order of the crawl:
    [calls] is the number of calls of [agent.run] made before, [i] the
    position of the first page. *)
Fixpoint extracted (w : World) (calls i : nat)
    (pages : list crawl4ai.CrawlResult) : list section :=
  match pages with
  | [] => []
  | page :: rest =>
      match agent_run w calls (extraction_prompt page) with
      | Ok output =>
          {| sec_index := i; sec_page := page; sec_output := output |}
            :: extracted w (S calls) (S i) rest
      | Raise _ => extracted w (S calls) (S i) rest
      end
  end.

(** What the extraction of the page at position [j] (from 0) of the
    crawl answers, when [calls] calls of the agent were made before the
    loop: the loop calls the agent once for each page. *)
Definition outcome (w : World) (calls : nat)
    (pages : list crawl4ai.CrawlResult) (j : nat) : option (result string) :=
  (λ page, agent_run w (calls + j) (extraction_prompt page)) <$> pages !! j.

Definition succeeded (w : World) (calls : nat)
    (pages : list crawl4ai.CrawlResult) (j : nat) : bool :=
  match outcome w calls pages j with
  | Some (Ok _) => true
  | _ => false
  end.

(** The number of successful extractions of a crawl. *)
Definition successes (w : World) (calls : nat)
    (pages : list crawl4ai.CrawlResult) : nat :=
  length (List.filter (succeeded w calls pages) (seq 0 (length pages))).

(** The block of a section with a given title: a subsection header line,
    the content, a blank line. *)
Definition titled_block (title body : string) : string :=
  ("## " +:+ title +:+ nl +:+ nl) +:+ (body +:+ nl +:+ nl).

(** The block [main] appends for a section. *)
Definition section_block (s : section) : string :=
  titled_block (section_title_of (sec_index s) (sec_page s)) (sec_output s).

Definition concat_str (l : list string) : string :=
  foldr String.append EmptyString l.

(** What was handed to [write] for a path, in order. *)
Fixpoint written (path : string) (tr : list event) : list string :=
  match tr with
  | [] => []
  | EvWrite p data :: rest =>
      if String.eqb p path then data :: written path rest
      else written path rest
  | _ :: rest => written path rest
  end.

(** The lines printed, in order. *)
Fixpoint printed (tr : list event) : list string :=
  match tr with
  | [] => []
  | EvPrint line :: rest => line :: printed rest
  | _ :: rest => printed rest
  end.

(** The state a successful [append_to_markdown] leaves. *)
Definition after_append (path data : string) (st : State) : State :=
  {| files := <[path := content (files st) path +:+ data]> (files st);
     dirs := dirs st;
     buffers := delete path (buffers st);
     trace := trace st ++ [EvOpen path ModeA; EvWrite path data;
                           EvFlush path; EvClose path];
     io_count := 3 + io_count st;
     agent_calls := agent_calls st;
     clock_reads := clock_reads st |}.

(** The state of the file right after the [flush] of
    [append_to_markdown], before the file is closed. *)
Definition append_until_flush (w : World) (path data : string) : M unit :=
  let! f := open_file w path ModeA in
  f_write w f data ;; f_flush w f.

(** The state a page whose extraction raised [e] leaves: three lines of
    trace and one more call of the agent, the files as they were. *)
Definition after_skip (page : crawl4ai.CrawlResult) (e : exn) (st : State)
  : State :=
  {| files := files st; dirs := dirs st; buffers := buffers st;
     trace := trace st ++ [EvPrint (extracting_line page);
                           EvAgentRun (extraction_prompt page);
                           EvPrint (extraction_error_line page e)];
     io_count := io_count st;
     agent_calls := S (agent_calls st);
     clock_reads := clock_reads st |}.

(** The path [main] writes to and the header it starts with, from the
    state [main] starts in: the first clock reading names the file, the
    second dates the header. *)
Definition artifact_path (w : World) (st : State) : string :=
  path_join "out"
    ("walmart_design_toolkit" +:+ "_"
       +:+ strftime_compact (now w (clock_reads st)) +:+ ".md").

Definition artifact_header (w : World) (st : State)
    (pages : list crawl4ai.CrawlResult) : string :=
  header_for (results_title pages) (now w (S (clock_reads st))).

(** The configuration [main] crawls with. *)
Definition main_config : crawl4ai.CrawlerRunConfig :=
  _config (WebCrawler_init 2 true true).

(** What [initialize_streaming_markdown] computes from the state it
    starts in: the path (the first clock reading names the file when
    [timestamp] is set), the header (dated by the next reading, empty
    for a falsy title), and the state once the clock has been read. *)
Definition init_path (w : World) (fw : FileWriter) (base_filename : string)
    (timestamp : bool) (st : State) : string :=
  path_join (output_dir fw)
    (if timestamp
     then sanitize base_filename +:+ "_"
            +:+ strftime_compact (now w (clock_reads st)) +:+ ".md"
     else sanitize base_filename +:+ ".md").

Definition header_reading (timestamp : bool) (st : State) : nat :=
  if timestamp then S (clock_reads st) else clock_reads st.

Definition init_header (w : World) (title : option string)
    (timestamp : bool) (st : State) : string :=
  match title with
  | Some (String c s) =>
      header_for (String c s) (now w (header_reading timestamp st))
  | _ => EmptyString
  end.

Definition init_clock (title : option string) (timestamp : bool)
    (st : State) : State :=
  let st1 := if timestamp then tick_clock st else st in
  if truthy title then tick_clock st1 else st1.

(** The state a successful [initialize_streaming_markdown] leaves, from
    the state after the clock readings. *)
Definition after_init (path header : string) (st : State) : State :=
  {| files := <[path := header]> (files st);
     dirs := dirs st;
     buffers := delete path (buffers st);
     trace := trace st ++ [EvOpen path ModeW; EvWrite path header;
                           EvClose path];
     io_count := 2 + io_count st;
     agent_calls := agent_calls st;
     clock_reads := clock_reads st |}.

(** The state a page whose extraction returned [output] leaves before
    its section is appended. *)
Definition after_extraction (page : crawl4ai.CrawlResult) (st : State)
  : State :=
  {| files := files st; dirs := dirs st; buffers := buffers st;
     trace := trace st ++ [EvPrint (extracting_line page);
                           EvAgentRun (extraction_prompt page);
                           EvPrint (extracted_line page)];
     io_count := io_count st;
     agent_calls := S (agent_calls st);
     clock_reads := clock_reads st |}.

(** The state a page leaves once its section is appended. *)
Definition after_section (path : string) (s : section) (st : State) : State :=
  emit (EvPrint (appended_line (sec_page s)))
    (after_append path (section_block s)
       (after_extraction (sec_page s) st)).

Definition emit_lines (lines : list string) (st : State) : State :=
  fold_left (fun s line => emit (EvPrint line) s) lines st.

(** What [main] prints before it starts the crawl. *)
Definition banner : list string :=
  ["Web Crawler Configuration:"]
  ++ map (fun kv => "  " +:+ fst kv +:+ ": " +:+ snd kv)
       (get_config_summary (WebCrawler_init 2 true true))
  ++ [EmptyString; "Target URL: " +:+ target_url; str_repeat "=" 60;
      "Starting crawl of: " +:+ target_url].

(** The state in which [main] enters its loop when the crawl returned
    [pages] and no system call raised. *)
Definition before_loop (w : World) (pages : list crawl4ai.CrawlResult)
    (st : State) : State :=
  let st_crawled :=
    emit (EvPrint (crawled_line pages))
      (emit (EvCrawl target_url) (emit_lines banner st)) in
  let st_dir := mkdir_effect "out" (tick_io (emit (EvMkdir "out") st_crawled)) in
  emit (EvPrint ("📄 Streaming results to: " +:+ artifact_path w st))
    (after_init (artifact_path w st) (artifact_header w st pages)
       (tick_clock (tick_clock st_dir))).

(** [st'] is [st] after [calls] more calls of the agent and with
    [blocks] appended to the file at [path], one [write] each: nothing
    else on disk has changed, and the trace has only grown. *)
Record appended_to (path : string) (blocks : list string) (calls : nat)
    (st st' : State) : Prop := {
  at_content :
    content (files st') path = content (files st) path +:+ concat_str blocks;
  at_present : is_Some (files st !! path) → is_Some (files st' !! path);
  at_others : ∀ q, q ≠ path → files st' !! q = files st !! q;
  at_dirs : dirs st' = dirs st;
  at_written : written path (trace st') = written path (trace st) ++ blocks;
  at_trace : ∃ t, trace st' = trace st ++ t;
  at_calls : agent_calls st' = agent_calls st + calls;
  at_clock : clock_reads st' = clock_reads st
}.

(** A run of [append_to_markdown] calls on one file, each with its
    content and its title. *)
Fixpoint append_all (w : World) (fw : FileWriter) (path : string)
    (sections : list (string * option string)) : M unit :=
  match sections with
  | [] => ret tt
  | (body, title) :: rest =>
      append_to_markdown w fw path body title ;;
      append_all w fw path rest
  end.

(** ** Concrete worlds

    Two pages, a clock that stands still, a disk that never fails, and
    an agent whose answers are scripted by the number of the call. *)

Definition docs_page : crawl4ai.CrawlResult :=
  {| crawl4ai.url := "https://example.com/docs/";
     crawl4ai.markdown := "# Docs";
     crawl4ai.depth := 0;
     crawl4ai.status_code := Some 200%Z |}.

Definition guide_page : crawl4ai.CrawlResult :=
  {| crawl4ai.url := "https://example.com/docs/guide";
     crawl4ai.markdown := "# Guide";
     crawl4ai.depth := 1;
     crawl4ai.status_code := Some 200%Z |}.

Definition noon : datetime :=
  {| year := 2025; month := 6; day := 1;
     hour := 12; minute := 0; second := 0 |}.

Definition good_config : json :=
  JDict [("base_url", JStr "https://llm.example.com");
         ("api_key", JStr "secret")].

Definition scripted (pages : result (list crawl4ai.CrawlResult))
    (answers : nat → result string) (cfg : config_source) : World :=
  {| arun := λ _ _, pages;
     agent_run := λ n _, answers n;
     io_fault := λ _, None;
     now := λ _, noon;
     config_file := cfg;
     build_agent := λ _, Ok tt |}.

Definition too_large : exn := Raised Exception "prompt is too long".

(** Every extraction succeeds. *)
Definition all_answer (n : nat) : result string := Ok "extract".

(** The extraction of the second page fails. *)
Definition second_fails (n : nat) : result string :=
  match n with
  | 1 => Raise too_large
  | _ => Ok "extract"
  end.

Definition calm_world : World :=
  scripted (Ok [docs_page; guide_page]) all_answer (CfgJSON good_config).

Definition rough_world : World :=
  scripted (Ok [docs_page; guide_page]) second_fails (CfgJSON good_config).

Definition unreachable_world : World :=
  scripted (Raise (Raised OSError "net::ERR_NAME_NOT_RESOLVED"))
    all_answer (CfgJSON good_config).

Definition the_agent : Agent :=
  {| model_name := "claude-sonnet-4"; retries := 3 |}.

Definition out_writer : FileWriter := {| output_dir := "out" |}.

Definition fresh : State := initial ∅ ∅.

(** An artifact that is initialized, gets one section, and is
    initialized again within the same second. *)
Definition notes_path : string := "out/notes_20250601_120000.md".

Definition notes_started : State :=
  (initialize_streaming_markdown calm_world out_writer "notes"
     (Some "First") true fresh).2.

Definition notes_grown : State :=
  (append_all calm_world out_writer notes_path
     [("body", Some "Page 1: u")] notes_started).2.

Definition notes_restarted : State :=
  (initialize_streaming_markdown calm_world out_writer "notes"
     (Some "Second") true notes_grown).2.

Definition two_pages : list crawl4ai.CrawlResult := [docs_page; guide_page].

(** A crawl that returns one page. *)
Definition lone_world : World :=
  scripted (Ok [docs_page]) all_answer (CfgJSON good_config).

(** A configuration file that exists and that the process may not
    read. *)
Definition permission_denied : exn :=
  Raised OSError "[Errno 13] Permission denied: '/etc/secrets/.json'".

Definition locked_world : World :=
  scripted (Ok two_pages) all_answer (CfgUnreadable permission_denied).

(** A configuration file without [api_key]. *)
Definition keyless_world : World :=
  scripted (Ok two_pages) all_answer
    (CfgJSON (JDict [("base_url", JStr "https://llm.example.com")])).

(** ** The specification's words, where the code differs *)

(** The block of a section whose title is the URL of its page. *)
Definition url_titled_block (s : section) : string :=
  titled_block (crawl4ai.url (sec_page s)) (sec_output s).

(** The final summary of a run: the last two lines it prints, which for
    a run that completes are the lines [main] prints after its loop. *)
Definition final_summary (tr : list event) : list string :=
  let lines := printed tr in
  drop (length lines - 2) lines.

(** The lines the loop of [main] prints for a page, when [calls] calls
    of the agent were made before: two when the extraction raises,
    three when the section is written. *)
Definition page_lines (w : World) (calls : nat) (page : crawl4ai.CrawlResult)
  : list string :=
  match agent_run w calls (extraction_prompt page) with
  | Ok _ => [extracting_line page; extracted_line page; appended_line page]
  | Raise e => [extracting_line page; extraction_error_line page e]
  end.

(** The lines the loop prints for a crawl when no system call raises. *)
Fixpoint loop_lines (w : World) (calls : nat)
    (pages : list crawl4ai.CrawlResult) : list string :=
  match pages with
  | [] => []
  | page :: rest => page_lines w calls page ++ loop_lines w (S calls) rest
  end.

(** A line is one of the four the loop prints about a page. *)
Definition about_page (page : crawl4ai.CrawlResult) (line : string) : Prop :=
  line = extracting_line page ∨ line = extracted_line page
  ∨ line = appended_line page ∨ ∃ e, line = extraction_error_line page e.

(** A line gives a page count when it starts as the line [main] prints
    after the crawl. *)
Definition gives_page_count (line : string) : bool :=
  String.prefix "Successfully crawled " line.

(** A JSON value has a field when it is an object with that key. *)
Definition has_field (field : string) (v : json) : bool :=
  match v with
  | JDict items => existsb (λ kv, String.eqb kv.1 field) items
  | _ => false
  end.

(** The causes of a configuration failure the specification lists: the
    file is missing, holds invalid JSON, or lacks [base_url] or
    [api_key]. *)
Definition stated_failure (c : config_source) : bool :=
  match c with
  | CfgAbsent => true
  | CfgInvalidJSON _ => true
  | CfgJSON v => negb (has_field "base_url" v) || negb (has_field "api_key" v)
  | CfgUnreadable _ => false
  end.

(** ** The rest of the program

    The functions of [file_writer.py], [web_crawler.py] and [agent.py]
    that the run of [main] does not go through. *)

Section Reports.

Context (w : World).

(** [FileWriter.write_markdown]. With no [filename] the name comes from
    the title, or is [crawl_output] when the title is falsy. *)
Definition write_markdown (self : FileWriter) (content : string)
    (filename title : option string) (timestamp : bool) : M string :=
  try_except
    (let base_name :=
       match filename with
       | None =>
           if truthy title then default EmptyString title else "crawl_output"
       | Some name => name
       end in
     let! file_name := _generate_filename w self base_name ".md" timestamp in
     let file_path := path_join (output_dir self) file_name in
     let! header :=
       match title with
       | Some (String c s) =>
           let! t := datetime_now w in ret (header_for (String c s) t)
       | _ => ret EmptyString
       end in
     let markdown_content := header +:+ content in
     with_open w file_path ModeW (fun f => f_write w f markdown_content) ;;
     ret file_path)
    (fun e => raise (Raised Exception
       ("Failed to write markdown file: " +:+ str_exn e))).

(** [getattr(result, 'status_code', 'N/A')] in an f-string: a result of
    the engine has the attribute, and [None] prints as [None]. *)
Definition str_status (status_code : option Z) : string :=
  match status_code with
  | Some code => str_int code
  | None => "None"
  end.

(** The eight parts [write_crawl_results] appends for a page. *)
Definition result_parts (i : nat) (result : crawl4ai.CrawlResult)
  : list string :=
  ["### Page " +:+ str_nat i +:+ ": " +:+ crawl4ai.url result;
   "**Depth:** " +:+ str_nat (crawl4ai.depth result);
   "**Status:** " +:+ str_status (crawl4ai.status_code result);
   "**Content:**";
   "```markdown";
   crawl4ai.markdown result;
   "```";
   "---" +:+ nl].

(** The loop [for i, result in enumerate(results, 1)] of
    [write_crawl_results]. *)
Fixpoint results_parts (i : nat) (results : list crawl4ai.CrawlResult)
  : list string :=
  match results with
  | [] => []
  | result :: rest => result_parts i result ++ results_parts (S i) rest
  end.

Definition content_parts (results : list crawl4ai.CrawlResult)
  : list string :=
  ["**Total Pages Crawled:** " +:+ str_nat (length results) +:+ nl;
   "## Crawl Results" +:+ nl]
  ++ results_parts 1 results.

(** [FileWriter.write_crawl_results] *)
Definition write_crawl_results (self : FileWriter)
    (results : list crawl4ai.CrawlResult) (base_filename : string)
    (timestamp : bool) : M string :=
  try_except
    (let title := results_title results in
     let markdown_content := String.concat nl (content_parts results) in
     write_markdown self markdown_content (Some base_filename) (Some title)
       timestamp)
    (fun e => raise (Raised Exception
       ("Failed to write crawl results: " +:+ str_exn e))).

(** The loop of [crawl_and_display]. [markdown[:200]] is the first 200
    characters, or all of them when there are fewer. *)
Fixpoint display_results (results : list crawl4ai.CrawlResult) : M unit :=
  match results with
  | [] => ret tt
  | result :: rest =>
      print ("URL: " +:+ crawl4ai.url result) ;;
      print ("Depth: " +:+ str_nat (crawl4ai.depth result)) ;;
      print ("Content Preview:" +:+ nl
               +:+ String.substring 0 200 (crawl4ai.markdown result)
               +:+ "...") ;;
      print (str_repeat "-" 50) ;;
      display_results rest
  end.

(** [WebCrawler.crawl_and_display] *)
Definition crawl_and_display (self : WebCrawler) (target : string) : M unit :=
  try_except
    (let! results := crawl w self target in
     print ("Crawled " +:+ str_nat (length results) +:+ " pages in total") ;;
     print (str_repeat "-" 50) ;;
     display_results results)
    (fun e => print ("Error during crawling: " +:+ str_exn e)).

End Reports.

(** Truth value of a JSON value, as an [if] or an [and] reads it. *)
Definition json_truthy (v : json) : bool :=
  match v with
  | JNull => false
  | JBool b => b
  | JInt n => negb (n =? 0)%Z
  | JFloat repr => negb (String.eqb repr "0.0" || String.eqb repr "-0.0")
  | JStr EmptyString => false
  | JStr (String _ _) => true
  | JList [] => false
  | JList (_ :: _) => true
  | JDict [] => false
  | JDict (_ :: _) => true
  end.

(** [key in config and config[key]] for a dict: the value when the key is
    there and its value is truthy. *)
Definition truthy_item (key : string) (config : list (string * json))
  : option json :=
  match List.find (λ kv, String.eqb kv.1 key) config with
  | Some (_, v) => if json_truthy v then Some v else None
  | None => None
  end.

(** [Path.exists] on the disk of the state. *)
Definition path_exists (st : State) (path : string) : bool :=
  match files st !! path with
  | Some _ => true
  | None => bool_decide (path ∈ dirs st)
  end.

(** The keyword arguments [create_http_client] hands to
    [httpx.AsyncClient]. *)
Record client_kwargs := {
  kw_headers : option json;
  kw_verify : option string
}.

Section HttpClient.

(** [httpx.AsyncClient], called with the keyword arguments. It is the
    library's constructor: it may raise (a header value that is no string, a
    [verify] file that holds no certificate), and what it does is
    decided by its arguments and by the disk. *)
Context (AsyncClient : client_kwargs → gmap string string → result unit).

(** [create_http_client]: its argument is a dict, as its signature
    says, and the client it returns is given by the arguments it was
    made with. A value of [ca_certs_path] that is truthy and no string
    makes [Path] raise a [TypeError] (the message is CPython 3.12's).
    The path is taken as it is written: the normal form [Path] gives it
    is not modelled. *)
Definition create_http_client (config : list (string * json))
  : M client_kwargs :=
  let! headers :=
    match truthy_item "headers" config with
    | Some h =>
        logger "INFO" "HTTP client configured with custom headers" ;;
        ret (Some h)
    | None => ret None
    end in
  let! verify :=
    match truthy_item "ca_certs_path" config with
    | Some (JStr ca_path) =>
        fun st =>
          if path_exists st ca_path then
            (logger "INFO"
               ("HTTP client configured with CA certificates: " +:+ ca_path) ;;
             ret (Some ca_path)) st
          else
            (logger "WARNING"
               ("CA certificates file not found: " +:+ ca_path) ;;
             ret None) st
    | Some other =>
        raise (Raised TypeError
                 ("argument should be a str or an os.PathLike object where "
                    +:+ "__fspath__ returns a str, not '"
                    +:+ type_name other +:+ "'"))
    | None => ret None
    end in
  let client_kwargs := {| kw_headers := headers; kw_verify := verify |} in
  fun st =>
    match AsyncClient client_kwargs (files st) with
    | Ok _ => (Ok client_kwargs, st)
    | Raise e => (Raise e, st)
    end.

End HttpClient.

(** What [create_http_client] answers when it has called the
    constructor with [kw] on the disk [disk]. *)
Definition constructed
    (AsyncClient : client_kwargs → gmap string string → result unit)
    (kw : client_kwargs) (disk : gmap string string) : result client_kwargs :=
  match AsyncClient kw disk with
  | Ok _ => Ok kw
  | Raise e => Raise e
  end.

(** ** The specification of file names *)

(** The characters a sanitized name is made of. *)
Definition filename_char (c : ascii) : bool :=
  let n := nat_of_ascii c in
  ((48 <=? n)%nat && (n <=? 57)%nat) || ((97 <=? n)%nat && (n <=? 122)%nat)
  || Ascii.eqb c "-"%char || Ascii.eqb c "_"%char.

Definition is_ascii (s : string) : Prop :=
  Forall (λ c, nat_of_ascii c < 128) (String.list_ascii_of_string s).

(** What [datetime.now()] can return (from the year 1000 on, where
    [%Y] has four digits on every platform). *)
Definition valid_datetime (t : datetime) : Prop :=
  1000 ≤ year t < 100 * 100 ∧ 1 ≤ month t ≤ 12 ∧ 1 ≤ day t ≤ 31
  ∧ hour t ≤ 23 ∧ minute t ≤ 59 ∧ second t ≤ 59.

(** Reads a decimal number, leading zeros allowed. *)
Definition read_nat (s : string) : option nat :=
  option_map Nat.of_uint (NilEmpty.uint_of_string s).

(** ** More concrete worlds *)

Definition disk_full : exn :=
  Raised OSError "[Errno 28] No space left on device".

(** A world whose [k]-th system call on the file system raises (calls
    counted from 0), and no other. *)
Definition faulty_world (k : nat) : World :=
  {| arun := λ _ _, Ok two_pages;
     agent_run := λ n _, all_answer n;
     io_fault := λ n, if Nat.eqb n k then Some disk_full else None;
     now := λ _, noon;
     config_file := CfgJSON good_config;
     build_agent := λ _, Ok tt |}.

(** A world whose provider cannot be set up. *)
Definition no_provider_world : World :=
  {| arun := λ _ _, Ok two_pages;
     agent_run := λ n _, all_answer n;
     io_fault := λ _, None;
     now := λ _, noon;
     config_file := CfgJSON good_config;
     build_agent := λ _, Raise (Raised OSError "could not load CA bundle") |}.

(** A configuration file that holds a JSON list of the two names. *)
Definition list_config_world : World :=
  scripted (Ok two_pages) all_answer
    (CfgJSON (JList [JStr "base_url"; JStr "api_key"])).

(** A clock that shows the number of the reading as the second. *)
Definition ticking_world : World :=
  {| arun := λ _ _, Ok two_pages;
     agent_run := λ n _, all_answer n;
     io_fault := λ _, None;
     now := λ n, {| year := 2025; month := 6; day := 1;
                    hour := 12; minute := 0; second := n |};
     config_file := CfgJSON good_config;
     build_agent := λ _, Ok tt |}.

(** A disk with an artifact on it. *)
Definition used : State :=
  {| files := {[ "out/report.md" := "old report" ]};
     dirs := {[ "out" ]}; buffers := ∅; trace := [];
     io_count := 0; agent_calls := 0; clock_reads := 0 |}.

(** A configuration that names a CA bundle. *)
Definition ca_config : list (string * json) :=
  [("base_url", JStr "https://llm.example.com");
   ("api_key", JStr "secret");
   ("headers", JDict []);
   ("ca_certs_path", JStr "/etc/ssl/corp.pem")].

(** A constructor that loads the file it is to verify with, and
    rejects one that holds no certificate. *)
Definition pem_checking_client (kw : client_kwargs)
    (disk : gmap string string) : result unit :=
  match kw_verify kw with
  | None => Ok tt
  | Some path =>
      if String.prefix "-----BEGIN CERTIFICATE-----" (content disk path)
      then Ok tt
      else Raise (Raised OSError "[SSL] PEM lib (_ssl.c:4149)")
  end.

(** ** Strings and traces *)

Lemma str_app_cons (c : ascii) (s t : string) :
  String c s +:+ t = String c (s +:+ t).
Proof. reflexivity. Qed.

Lemma str_app_nil_l (s : string) : EmptyString +:+ s = s.
Proof. reflexivity. Qed.

Lemma str_app_nil_r (s : string) : s +:+ EmptyString = s.
Proof.
  induction s as [|c s IH]; [done|]. by rewrite str_app_cons, IH.
Qed.

Lemma str_app_assoc (s1 s2 s3 : string) :
  (s1 +:+ s2) +:+ s3 = s1 +:+ (s2 +:+ s3).
Proof.
  induction s1 as [|c s1 IH]; [done|]. by rewrite !str_app_cons, IH.
Qed.

Lemma concat_str_app (l1 l2 : list string) :
  concat_str (l1 ++ l2) = concat_str l1 +:+ concat_str l2.
Proof.
  unfold concat_str. induction l1 as [|s l1 IH]; [done|].
  cbn. by rewrite IH, str_app_assoc.
Qed.

Lemma written_app (path : string) (t1 t2 : list event) :
  written path (t1 ++ t2) = written path t1 ++ written path t2.
Proof.
  induction t1 as [|ev t1 IH]; [done|].
  destruct ev; cbn; try done.
  destruct (String.eqb path0 path); cbn; by rewrite IH.
Qed.

Lemma printed_app (t1 t2 : list event) :
  printed (t1 ++ t2) = printed t1 ++ printed t2.
Proof.
  induction t1 as [|ev t1 IH]; [done|].
  destruct ev; cbn; by rewrite ?IH.
Qed.

Lemma content_insert (m : gmap string string) (p s : string) :
  content (<[p := s]> m) p = s.
Proof. unfold content. by rewrite lookup_insert_eq. Qed.

Lemma content_insert_ne (m : gmap string string) (p q s : string) :
  p ≠ q → content (<[p := s]> m) q = content m q.
Proof. intros. unfold content. by rewrite lookup_insert_ne. Qed.

(** ** System calls that do not raise *)

Lemma State_ext (a b : State) :
  files a = files b → dirs a = dirs b → buffers a = buffers b →
  trace a = trace b → io_count a = io_count b →
  agent_calls a = agent_calls b → clock_reads a = clock_reads b →
  a = b.
Proof. destruct a, b; cbn; intros; by subst. Qed.

(** Reads a field of a state through the updates made to it. *)
Ltac unfold_state :=
  cbn [files dirs buffers trace io_count agent_calls clock_reads
       write_effect open_effect flush_effect mkdir_effect set_disk set_dirs
       tick_io tick_agent tick_clock emit].

Lemma sys_call_ok (w : World) (ev : event) (effect : State → State)
    (st : State) :
  io_fault w (io_count st) = None →
  sys_call w ev effect st = (Ok tt, effect (tick_io (emit ev st))).
Proof. intros H. unfold sys_call. by rewrite H. Qed.

Lemma bind_ok {A B} (m : M A) (k : A → M B) (st st' : State) (a : A) :
  m st = (Ok a, st') → bind m k st = k a st'.
Proof. intros H. unfold bind. by rewrite H. Qed.

Lemma bind_raise {A B} (m : M A) (k : A → M B) (st st' : State) (e : exn) :
  m st = (Raise e, st') → bind m k st = (Raise e, st').
Proof. intros H. unfold bind. by rewrite H. Qed.

Lemma try_except_ok {A} (m : M A) (h : exn → M A) (st st' : State) (a : A) :
  m st = (Ok a, st') → try_except m h st = (Ok a, st').
Proof. intros H. unfold try_except. by rewrite H. Qed.

Lemma try_except_raise {A} (m : M A) (h : exn → M A) (st st' : State)
    (e : exn) :
  m st = (Raise e, st') → try_except m h st = h e st'.
Proof. intros H. unfold try_except. by rewrite H. Qed.

Lemma open_file_ok (w : World) (path : string) (m : mode) (st : State) :
  no_faults w →
  open_file w path m st
  = (Ok path, open_effect path m (tick_io (emit (EvOpen path m) st))).
Proof.
  intros Hw. unfold open_file.
  erewrite bind_ok by (apply sys_call_ok, Hw). done.
Qed.

Lemma f_write_ok (w : World) (f data : string) (st : State) :
  no_faults w →
  f_write w f data st
  = (Ok tt, write_effect f data (tick_io (emit (EvWrite f data) st))).
Proof. intros Hw. apply sys_call_ok, Hw. Qed.

Lemma f_flush_ok (w : World) (f : string) (st : State) :
  no_faults w →
  f_flush w f st = (Ok tt, flush_effect f (tick_io (emit (EvFlush f) st))).
Proof. intros Hw. apply sys_call_ok, Hw. Qed.

Lemma append_until_flush_ok (w : World) (path data : string) (st : State) :
  no_faults w →
  ∃ st', append_until_flush w path data st = (Ok tt, st')
         ∧ files st' = <[path := content (files st) path +:+ data]> (files st)
         ∧ buffers st' = <[path := EmptyString]> (buffers st)
         ∧ trace st' = trace st ++ [EvOpen path ModeA; EvWrite path data;
                                    EvFlush path].
Proof.
  intros Hw. unfold append_until_flush.
  erewrite bind_ok by (by apply open_file_ok).
  erewrite bind_ok by (by apply f_write_ok).
  rewrite f_flush_ok by done.
  eexists; split; [reflexivity|]. unfold_state.
  rewrite !content_insert, !insert_insert_eq, <- !app_assoc.
  by rewrite str_app_nil_l.
Qed.

Lemma append_to_markdown_ok (w : World) (fw : FileWriter)
    (path body : string) (title : option string) (st : State) :
  no_faults w →
  append_to_markdown w fw path body title st
  = (Ok tt, after_append path (append_content body title) st).
Proof.
  intros Hw. unfold append_to_markdown, with_open.
  apply try_except_ok.
  erewrite bind_ok by (by apply open_file_ok).
  erewrite bind_ok by (by apply f_write_ok).
  rewrite f_flush_ok by done.
  f_equal. unfold f_close, after_append.
  apply State_ext; unfold_state; try done.
  - rewrite !content_insert, !insert_insert_eq.
    by rewrite str_app_nil_r, str_app_nil_l.
  - by rewrite !delete_insert_eq.
  - by rewrite <- !app_assoc.
Qed.

Lemma sys_call_raise (w : World) (ev : event) (effect : State → State)
    (st : State) (e : exn) :
  io_fault w (io_count st) = Some e →
  sys_call w ev effect st = (Raise e, tick_io (emit ev st)).
Proof. intros H. unfold sys_call. by rewrite H. Qed.

(** ** [initialize_streaming_markdown] *)

Lemma with_open_write (w : World) (path : string) (m : mode) (data : string)
    (st : State) :
  with_open w path m (fun f => f_write w f data) st
  = match io_fault w (io_count st) with
    | Some e => (Raise e, tick_io (emit (EvOpen path m) st))
    | None =>
        let st1 := open_effect path m (tick_io (emit (EvOpen path m) st)) in
        let st2 := tick_io (emit (EvWrite path data) st1) in
        match io_fault w (S (io_count st)) with
        | Some e => (Raise e, f_close path st2)
        | None => (Ok tt, f_close path (write_effect path data st2))
        end
    end.
Proof.
  unfold with_open, open_file.
  destruct (io_fault w (io_count st)) as [e|] eqn:H1.
  - erewrite bind_raise; [done|].
    by erewrite bind_raise by by apply sys_call_raise.
  - erewrite bind_ok by (erewrite bind_ok by (by apply sys_call_ok); done).
    unfold f_write, sys_call. unfold_state.
    by destruct (io_fault w (S (io_count st))).
Qed.

Lemma initialize_unfold (w : World) (fw : FileWriter) (base : string)
    (title : option string) (ts : bool) (st : State) :
  initialize_streaming_markdown w fw base title ts st
  = try_except
      (with_open w (init_path w fw base ts st) ModeW
         (fun f => f_write w f (init_header w title ts st)) ;;
       ret (init_path w fw base ts st))
      (fun e => raise (Raised Exception
         ("Failed to initialize streaming markdown file: " +:+ str_exn e)))
      (init_clock title ts st).
Proof.
  destruct ts, title as [[|c s]|]; reflexivity.
Qed.

Lemma close_after_write_w (path header : string) (st : State) :
  f_close path
    (write_effect path header
       (tick_io (emit (EvWrite path header)
          (open_effect path ModeW (tick_io (emit (EvOpen path ModeW) st))))))
  = after_init path header st.
Proof.
  unfold f_close, after_init. apply State_ext; unfold_state; try done.
  - rewrite !content_insert, !insert_insert_eq.
    by rewrite str_app_nil_l.
  - by rewrite !delete_insert_eq.
  - by rewrite <- !app_assoc.
Qed.

(** Whatever the world does, a call that returns has left the state
    [after_init]. *)
Lemma initialize_inv (w : World) (fw : FileWriter) (base : string)
    (title : option string) (ts : bool) (st st' : State) (path : string) :
  initialize_streaming_markdown w fw base title ts st = (Ok path, st') →
  path = init_path w fw base ts st
  ∧ st' = after_init path (init_header w title ts st) (init_clock title ts st).
Proof.
  rewrite initialize_unfold. unfold try_except, bind.
  rewrite with_open_write.
  assert (io_count (init_clock title ts st) = io_count st) as ->.
  { unfold init_clock. by destruct ts, (truthy title). }
  destruct (io_fault w (io_count st)); [discriminate|].
  cbv zeta. destruct (io_fault w (S (io_count st))); [discriminate|].
  unfold ret. intros [= <- <-]. split; [done|].
  by rewrite close_after_write_w.
Qed.

Lemma initialize_ok (w : World) (fw : FileWriter) (base : string)
    (title : option string) (ts : bool) (st : State) :
  no_faults w →
  initialize_streaming_markdown w fw base title ts st
  = (Ok (init_path w fw base ts st),
     after_init (init_path w fw base ts st) (init_header w title ts st)
       (init_clock title ts st)).
Proof.
  intros Hw. rewrite initialize_unfold. unfold try_except, bind.
  rewrite with_open_write, !Hw. cbv zeta. unfold ret.
  by rewrite close_after_write_w.
Qed.

(** ** The loop of [main] *)

Lemma bind_print {B} (line : string) (k : unit → M B) (st : State) :
  bind (print line) k st = k tt (emit (EvPrint line) st).
Proof. reflexivity. Qed.

Lemma print_all_ok (lines : list string) (st : State) :
  print_all lines st = (Ok tt, emit_lines lines st).
Proof.
  revert st. induction lines as [|l lines IH]; intros st; [done|].
  cbn [print_all]. rewrite bind_print. apply IH.
Qed.

Lemma append_content_titled (body title : string) :
  truthy (Some title) = true →
  append_content body (Some title) = titled_block title body.
Proof. intros H. unfold append_content. by rewrite H. Qed.

Lemma section_title_truthy (i : nat) (page : crawl4ai.CrawlResult) :
  truthy (Some (section_title_of i page)) = true.
Proof. reflexivity. Qed.

Section Loop.

Context (w : World) (agent : Agent) (fw : FileWriter) (path : string).

Lemma process_results_nil (i : nat) (st : State) :
  process_results w agent fw path i [] st = (Ok tt, st).
Proof. reflexivity. Qed.

(** A page whose extraction raises: the error is printed and the loop
    goes on with the next page; nothing is written. *)
Lemma process_results_skip (i : nat) (page : crawl4ai.CrawlResult)
    (rest : list crawl4ai.CrawlResult) (st : State) (e : exn) :
  agent_run w (agent_calls st) (extraction_prompt page) = Raise e →
  process_results w agent fw path i (page :: rest) st
  = process_results w agent fw path (S i) rest (after_skip page e st).
Proof.
  intros He. cbn [process_results]. rewrite bind_print.
  unfold bind at 1, try_except, bind at 1, agent_run_output.
  unfold_state. rewrite He. rewrite bind_print. unfold ret.
  f_equal. apply State_ext; unfold after_skip; unfold_state; try done.
  by rewrite <- !app_assoc.
Qed.

(** A page whose extraction returns: its section is appended. *)
Lemma process_results_section (i : nat) (page : crawl4ai.CrawlResult)
    (rest : list crawl4ai.CrawlResult) (st : State) (output : string) :
  no_faults w →
  agent_run w (agent_calls st) (extraction_prompt page) = Ok output →
  process_results w agent fw path i (page :: rest) st
  = process_results w agent fw path (S i) rest
      (after_section path
         {| sec_index := i; sec_page := page; sec_output := output |} st).
Proof.
  intros Hw Ho. cbn [process_results]. rewrite bind_print.
  unfold bind at 1, try_except, bind at 1, agent_run_output.
  unfold_state. rewrite Ho. rewrite bind_print. unfold ret.
  erewrite bind_ok by (by apply append_to_markdown_ok).
  rewrite bind_print.
  rewrite append_content_titled by apply section_title_truthy.
  f_equal. unfold after_section, section_block. cbn [sec_page sec_index sec_output].
  do 2 f_equal.
  apply State_ext; unfold after_extraction; unfold_state; try done.
  by rewrite <- !app_assoc.
Qed.

Lemma appended_to_refl (st : State) : appended_to path [] 0 st st.
Proof.
  split.
  - by rewrite str_app_nil_r.
  - done.
  - done.
  - done.
  - by rewrite app_nil_r.
  - exists []. by rewrite app_nil_r.
  - lia.
  - done.
Qed.

Lemma appended_to_trans (b1 b2 : list string) (c1 c2 : nat)
    (st1 st2 st3 : State) :
  appended_to path b1 c1 st1 st2 → appended_to path b2 c2 st2 st3 →
  appended_to path (b1 ++ b2) (c1 + c2) st1 st3.
Proof.
  intros [] []. split.
  - by rewrite concat_str_app, <- str_app_assoc, at_content1, at_content0.
  - auto.
  - intros q Hq. by rewrite at_others1, at_others0.
  - by rewrite at_dirs1.
  - by rewrite app_assoc, at_written1, at_written0.
  - destruct at_trace0 as [t1 H1], at_trace1 as [t2 H2].
    exists (t1 ++ t2). by rewrite app_assoc, H2, H1.
  - lia.
  - by rewrite at_clock1.
Qed.

Lemma appended_to_skip (page : crawl4ai.CrawlResult) (e : exn) (st : State) :
  appended_to path [] 1 st (after_skip page e st).
Proof.
  split; cbn [after_skip files dirs trace agent_calls clock_reads].
  - by rewrite str_app_nil_r.
  - done.
  - done.
  - done.
  - rewrite written_app. reflexivity.
  - by eexists.
  - lia.
  - done.
Qed.

Lemma appended_to_section (s : section) (st : State) :
  appended_to path [section_block s] 1 st (after_section path s st).
Proof.
  unfold after_section, after_append, after_extraction.
  split; unfold_state.
  - rewrite content_insert. unfold concat_str. cbn [foldr].
    by rewrite str_app_nil_r.
  - intros _. rewrite lookup_insert_eq. by eexists.
  - intros q Hq. by rewrite lookup_insert_ne.
  - done.
  - rewrite !written_app. cbn [written]. rewrite String.eqb_refl.
    by rewrite !app_nil_r.
  - rewrite <- !app_assoc. by eexists.
  - lia.
  - done.
Qed.

(** When no system call raises the loop runs to its end, and appends
    the blocks of the pages whose extraction succeeded, in their
    order. *)
Lemma process_results_spec (pages : list crawl4ai.CrawlResult) :
  no_faults w →
  ∀ (i : nat) (st : State),
    ∃ st', process_results w agent fw path i pages st = (Ok tt, st')
           ∧ appended_to path
               (map section_block (extracted w (agent_calls st) i pages))
               (length pages) st st'.
Proof.
  intros Hw. induction pages as [|page rest IH]; intros i st.
  - exists st. split; [done|]. apply appended_to_refl.
  - cbn [extracted length].
    destruct (agent_run w (agent_calls st) (extraction_prompt page))
      as [output|e] eqn:Hrun.
    + rewrite (process_results_section _ _ _ _ _ Hw Hrun).
      set (s := {| sec_index := i; sec_page := page; sec_output := output |}).
      destruct (IH (S i) (after_section path s st)) as (st' & Hst' & Happ).
      exists st'. split; [done|].
      pose proof (appended_to_section s st) as Hs.
      rewrite (at_calls _ _ _ _ _ Hs), Nat.add_1_r in Happ.
      apply (appended_to_trans _ _ _ _ _ _ _ Hs Happ).
    + rewrite (process_results_skip _ _ _ _ _ Hrun).
      destruct (IH (S i) (after_skip page e st)) as (st' & Hst' & Happ).
      exists st'. split; [done|].
      pose proof (appended_to_skip page e st) as Hs.
      rewrite (at_calls _ _ _ _ _ Hs), Nat.add_1_r in Happ.
      apply (appended_to_trans _ _ _ _ _ _ _ Hs Happ).
Qed.

(** The loop over a list is the loop over its first pages followed by
    the loop over the others. *)
Lemma process_results_app (pre post : list crawl4ai.CrawlResult) :
  no_faults w →
  ∀ (i : nat) (st st_pre : State),
    process_results w agent fw path i pre st = (Ok tt, st_pre) →
    process_results w agent fw path i (pre ++ post) st
    = process_results w agent fw path (i + length pre) post st_pre.
Proof.
  intros Hw. induction pre as [|page rest IH]; intros i st st_pre.
  - intros [= <-]. by rewrite Nat.add_0_r.
  - cbn [app length].
    destruct (agent_run w (agent_calls st) (extraction_prompt page))
      as [output|e] eqn:Hrun.
    + rewrite !(process_results_section _ _ _ _ _ Hw Hrun).
      intros H. rewrite (IH _ _ _ H). f_equal. lia.
    + rewrite !(process_results_skip _ _ _ _ _ Hrun).
      intros H. rewrite (IH _ _ _ H). f_equal. lia.
Qed.

End Loop.

(** ** [main] *)

Lemma crawl_ok (w : World) (self : WebCrawler) (target : string)
    (pages : list crawl4ai.CrawlResult) (st : State) :
  arun w target (_config self) = Ok pages →
  crawl w self target st = (Ok pages, emit (EvCrawl target) st).
Proof. intros H. unfold crawl, try_except. by rewrite H. Qed.

Lemma crawl_raise (w : World) (self : WebCrawler) (target : string)
    (e : exn) (st : State) :
  arun w target (_config self) = Raise e →
  crawl w self target st
  = (Raise (Raised Exception
              ("Failed to crawl " +:+ target +:+ ": " +:+ str_exn e)),
     emit (EvCrawl target) st).
Proof. intros H. unfold crawl, try_except. by rewrite H. Qed.

Lemma FileWriter_init_ok (w : World) (dir : string) (st : State) :
  no_faults w →
  FileWriter_init w dir st
  = (Ok {| output_dir := dir |},
     mkdir_effect dir (tick_io (emit (EvMkdir dir) st))).
Proof.
  intros Hw. unfold FileWriter_init, _ensure_output_directory, mkdir_parents.
  erewrite bind_ok; [done|].
  apply try_except_ok, sys_call_ok, Hw.
Qed.

Lemma emit_lines_fields (lines : list string) (st : State) :
  files (emit_lines lines st) = files st
  ∧ dirs (emit_lines lines st) = dirs st
  ∧ buffers (emit_lines lines st) = buffers st
  ∧ trace (emit_lines lines st) = trace st ++ map EvPrint lines
  ∧ io_count (emit_lines lines st) = io_count st
  ∧ agent_calls (emit_lines lines st) = agent_calls st
  ∧ clock_reads (emit_lines lines st) = clock_reads st.
Proof.
  revert st. induction lines as [|l lines IH]; intros st.
  - cbn. by rewrite app_nil_r.
  - cbn [emit_lines fold_left map].
    destruct (IH (emit (EvPrint l) st)) as (Hf & Hd & Hb & Ht & Hi & Ha & Hc).
    unfold emit_lines in *. rewrite Hf, Hd, Hb, Ht, Hi, Ha, Hc.
    unfold_state. by rewrite <- app_assoc.
Qed.

Lemma init_clock_titled (title : option string) (st : State) :
  truthy title = true →
  init_clock title true st = tick_clock (tick_clock st).
Proof. intros H. unfold init_clock. by rewrite H. Qed.

Lemma results_title_truthy (pages : list crawl4ai.CrawlResult) :
  truthy (Some (results_title pages)) = true.
Proof. reflexivity. Qed.

Lemma init_header_titled (w : World) (title : string) (st : State) :
  truthy (Some title) = true →
  init_header w (Some title) true st
  = header_for title (now w (S (clock_reads st))).
Proof. destruct title; [done|]. reflexivity. Qed.

Lemma main_path_eq (w : World) (st st' : State) :
  clock_reads st' = clock_reads st →
  init_path w {| output_dir := "out" |} "walmart_design_toolkit" true st'
  = artifact_path w st.
Proof. intros H. unfold init_path, artifact_path. rewrite H. reflexivity. Qed.

Lemma banner_state (st : State) :
  emit (EvPrint ("Starting crawl of: " +:+ target_url))
    (emit (EvPrint (str_repeat "=" 60))
       (emit (EvPrint ("Target URL: " +:+ target_url))
          (emit (EvPrint EmptyString)
             (emit_lines
                (map (λ kv : string * string, "  " +:+ kv.1 +:+ ": " +:+ kv.2)
                   (get_config_summary (WebCrawler_init 2 true true)))
                (emit (EvPrint "Web Crawler Configuration:") st)))))
  = emit_lines banner st.
Proof.
  unfold banner, emit_lines. by rewrite !fold_left_app.
Qed.

Lemma before_loop_eq (w : World) (pages : list crawl4ai.CrawlResult)
    (st : State) :
  let fw := {| output_dir := "out" |} in
  let st_dir :=
    mkdir_effect "out"
      (tick_io (emit (EvMkdir "out")
         (emit (EvPrint (crawled_line pages))
            (emit (EvCrawl target_url) (emit_lines banner st))))) in
  emit (EvPrint ("📄 Streaming results to: "
                   +:+ init_path w fw "walmart_design_toolkit" true st_dir))
    (after_init (init_path w fw "walmart_design_toolkit" true st_dir)
       (init_header w (Some (results_title pages)) true st_dir)
       (init_clock (Some (results_title pages)) true st_dir))
  = before_loop w pages st.
Proof.
  intros fw st_dir.
  assert (clock_reads st_dir = clock_reads st) as Hclock.
  { subst st_dir. unfold_state. apply emit_lines_fields. }
  unfold fw. rewrite (main_path_eq w st st_dir Hclock).
  rewrite init_header_titled by apply results_title_truthy.
  rewrite init_clock_titled by apply results_title_truthy.
  rewrite Hclock. done.
Qed.

(** When the crawl returns and no system call raises, [main] enters its
    loop in the state [before_loop] and, the loop over, prints its
    report and is done. *)
Lemma main_ok (w : World) (agent : Agent)
    (pages : list crawl4ai.CrawlResult) (st st_end : State) :
  no_faults w →
  arun w target_url main_config = Ok pages →
  process_results w agent {| output_dir := "out" |} (artifact_path w st) 1
    pages (before_loop w pages st) = (Ok tt, st_end) →
  main w agent st
  = (Ok (Done completed),
     emit_lines (completion_report (artifact_path w st)) st_end).
Proof.
  intros Hw Hcrawl Hloop. unfold main.
  rewrite bind_print.
  erewrite bind_ok by apply print_all_ok.
  rewrite !bind_print.
  apply try_except_ok.
  rewrite bind_print.
  erewrite bind_ok by (apply crawl_ok, Hcrawl).
  rewrite bind_print.
  erewrite bind_ok by (by apply FileWriter_init_ok).
  erewrite bind_ok by (by apply initialize_ok).
  rewrite bind_print, banner_state, before_loop_eq.
  erewrite bind_ok by exact Hloop.
  erewrite bind_ok by apply print_all_ok.
  reflexivity.
Qed.

Lemma before_loop_fields (w : World) (pages : list crawl4ai.CrawlResult)
    (st : State) :
  files (before_loop w pages st)
  = <[artifact_path w st := artifact_header w st pages]> (files st)
  ∧ dirs (before_loop w pages st) = {["out"]} ∪ dirs st
  ∧ agent_calls (before_loop w pages st) = agent_calls st
  ∧ trace (before_loop w pages st)
    = trace st ++ map EvPrint banner
        ++ [EvCrawl target_url; EvPrint (crawled_line pages); EvMkdir "out";
            EvOpen (artifact_path w st) ModeW;
            EvWrite (artifact_path w st) (artifact_header w st pages);
            EvClose (artifact_path w st);
            EvPrint ("📄 Streaming results to: " +:+ artifact_path w st)].
Proof.
  destruct (emit_lines_fields banner st) as (Hf & Hd & Hb & Ht & Hi & Ha & Hc).
  unfold before_loop, after_init. unfold_state.
  rewrite Hf, Hd, Ha, Ht. repeat split; try done.
  by rewrite <- !app_assoc.
Qed.

Lemma printed_emit_lines (lines : list string) (st : State) :
  printed (trace (emit_lines lines st)) = printed (trace st) ++ lines.
Proof.
  destruct (emit_lines_fields lines st) as (_ & _ & _ & -> & _).
  rewrite printed_app. f_equal.
  induction lines as [|l lines IH]; [done|]. cbn. by rewrite IH.
Qed.

Lemma before_loop_counts (w : World) (pages : list crawl4ai.CrawlResult)
    (st : State) :
  io_count (before_loop w pages st) = 3 + io_count st
  ∧ printed (trace (before_loop w pages st))
    = printed (trace st) ++ banner
        ++ [crawled_line pages;
            "📄 Streaming results to: " +:+ artifact_path w st].
Proof.
  destruct (before_loop_fields w pages st) as (_ & _ & _ & ->).
  destruct (emit_lines_fields banner st) as (_ & _ & _ & _ & Hi & _).
  split.
  - unfold before_loop, after_init. unfold_state. by rewrite Hi.
  - rewrite !printed_app. by f_equal.
Qed.

(** What the loop prints. *)
Lemma process_results_printed (w : World) (agent : Agent) (fw : FileWriter)
    (path : string) (pages : list crawl4ai.CrawlResult) :
  no_faults w →
  ∀ (i : nat) (st st' : State),
    process_results w agent fw path i pages st = (Ok tt, st') →
    printed (trace st')
    = printed (trace st) ++ loop_lines w (agent_calls st) pages.
Proof.
  intros Hw. induction pages as [|page rest IH]; intros i st st' Hrun.
  - injection Hrun as <-. by rewrite app_nil_r.
  - cbn [loop_lines]. unfold page_lines.
    destruct (agent_run w (agent_calls st) (extraction_prompt page))
      as [output|e] eqn:Hout.
    + rewrite (process_results_section _ _ _ _ _ _ _ _ _ Hw Hout) in Hrun.
      apply IH in Hrun. rewrite Hrun.
      unfold after_section, after_append, after_extraction. unfold_state.
      rewrite !printed_app. cbn [printed sec_page].
      by rewrite ?app_nil_r, <- ?app_assoc.
    + rewrite (process_results_skip _ _ _ _ _ _ _ _ _ Hout) in Hrun.
      apply IH in Hrun. rewrite Hrun.
      unfold after_skip. unfold_state.
      rewrite !printed_app. cbn [printed].
      by rewrite ?app_nil_r, <- ?app_assoc.
Qed.

Lemma loop_lines_about_pages (w : World) (calls : nat)
    (pages : list crawl4ai.CrawlResult) :
  Forall (λ line, ∃ page, page ∈ pages ∧ about_page page line)
    (loop_lines w calls pages).
Proof.
  revert calls. induction pages as [|page rest IH]; intros calls.
  - constructor.
  - cbn [loop_lines]. apply Forall_app. split.
    + unfold page_lines.
      destruct (agent_run w calls (extraction_prompt page)) as [output|e];
        repeat constructor; exists page; (split; [apply list_elem_of_here|]);
        unfold about_page; eauto 6.
    + eapply Forall_impl; [apply IH|]. intros line (p & Hp & Hline).
      exists p. split; [by apply list_elem_of_further|done].
Qed.

Lemma loop_lines_give_no_count (w : World) (calls : nat)
    (pages : list crawl4ai.CrawlResult) :
  Forall (λ line, gives_page_count line = false) (loop_lines w calls pages).
Proof.
  revert calls. induction pages as [|page rest IH]; intros calls.
  - constructor.
  - cbn [loop_lines]. apply Forall_app. split; [|apply IH].
    unfold page_lines.
    destruct (agent_run w calls (extraction_prompt page)) as [output|e];
      repeat constructor.
Qed.

Lemma length_loop_lines (w : World) (calls i : nat)
    (pages : list crawl4ai.CrawlResult) :
  length (loop_lines w calls pages)
  = 2 * length pages + length (extracted w calls i pages).
Proof.
  revert calls i. induction pages as [|page rest IH]; intros calls i; [done|].
  cbn [loop_lines extracted]. rewrite length_app, (IH (S calls) (S i)).
  unfold page_lines.
  destruct (agent_run w calls (extraction_prompt page)); cbn [length]; lia.
Qed.

Lemma banner_gives_no_count :
  Forall (λ line, gives_page_count line = false) banner.
Proof.
  apply Forall_forall. intros line Hin%list_elem_of_In.
  assert (forallb (λ l, negb (gives_page_count l)) banner = true) as H
    by reflexivity.
  rewrite forallb_forall in H. apply negb_true_iff. by apply H.
Qed.

(** ** The sections of a run *)

Lemma elem_of_extracted (w : World) (pages : list crawl4ai.CrawlResult)
    (calls i : nat) (s : section) :
  s ∈ extracted w calls i pages
  ↔ ∃ j, pages !! j = Some (sec_page s)
         ∧ sec_index s = i + j
         ∧ agent_run w (calls + j) (extraction_prompt (sec_page s))
           = Ok (sec_output s).
Proof.
  revert calls i. induction pages as [|page rest IH]; intros calls i.
  - cbn. split; [by intros ?%elem_of_nil|]. by intros (j & ? & _).
  - cbn [extracted]. split.
    + intros Hin.
      destruct (agent_run w calls (extraction_prompt page)) as [o|e] eqn:Hrun.
      * apply elem_of_cons in Hin as [->|Hin].
        { exists 0. cbn. by rewrite !Nat.add_0_r. }
        apply IH in Hin as (j & Hj & Hi & Ho). exists (S j).
        rewrite !Nat.add_succ_r. by cbn.
      * apply IH in Hin as (j & Hj & Hi & Ho). exists (S j).
        rewrite !Nat.add_succ_r. by cbn.
    + intros ([|j] & Hj & Hi & Ho).
      * cbn in Hj. injection Hj as ->. rewrite !Nat.add_0_r in *.
        rewrite Ho. destruct s; cbn in *. subst. apply list_elem_of_here.
      * cbn in Hj. rewrite !Nat.add_succ_r in *.
        assert (s ∈ extracted w (S calls) (S i) rest) as Hin.
        { apply IH. by exists j. }
        destruct (agent_run w calls (extraction_prompt page));
          [by apply list_elem_of_further|done].
Qed.

Lemma elem_of_extracted_outcome (w : World)
    (pages : list crawl4ai.CrawlResult) (calls i : nat) (s : section) :
  s ∈ extracted w calls i pages
  ↔ ∃ j, pages !! j = Some (sec_page s)
         ∧ sec_index s = i + j
         ∧ outcome w calls pages j = Some (Ok (sec_output s)).
Proof.
  rewrite elem_of_extracted. unfold outcome. split.
  - intros (j & Hj & Hi & Ho). exists j. rewrite Hj. cbn. by rewrite Ho.
  - intros (j & Hj & Hi & Ho). exists j. rewrite Hj in Ho. cbn in Ho.
    by injection Ho as Ho.
Qed.

Lemma length_filter_map {A B} (f : B → bool) (g : A → B) (l : list A) :
  length (List.filter f (map g l)) = length (List.filter (λ x, f (g x)) l).
Proof.
  induction l as [|x l IH]; [done|]. cbn. destruct (f (g x)); cbn; by rewrite IH.
Qed.

Lemma length_extracted (w : World) (pages : list crawl4ai.CrawlResult)
    (calls i : nat) :
  length (extracted w calls i pages) = successes w calls pages.
Proof.
  unfold successes. revert calls i.
  induction pages as [|page rest IH]; intros calls i; [done|].
  assert (length (List.filter (succeeded w calls (page :: rest))
                    (seq 1 (length rest)))
          = length (extracted w (S calls) (S i) rest)) as Htail.
  { rewrite <- seq_shift, length_filter_map, (IH (S calls) (S i)).
    f_equal. apply List.filter_ext. intros j. unfold succeeded, outcome.
    cbn. by rewrite Nat.add_succ_r. }
  cbn [extracted length seq List.filter].
  unfold succeeded at 1, outcome. cbn [lookup list_lookup fmap option_fmap option_map].
  rewrite Nat.add_0_r.
  destruct (agent_run w calls (extraction_prompt page)); cbn [length];
    by rewrite Htail.
Qed.

(** The sections come in the order of the pages. *)
Lemma extracted_sorted (w : World) (pages : list crawl4ai.CrawlResult)
    (calls i : nat) :
  StronglySorted lt (map sec_index (extracted w calls i pages)).
Proof.
  revert calls i. induction pages as [|page rest IH]; intros calls i.
  - constructor.
  - cbn [extracted].
    destruct (agent_run w calls (extraction_prompt page)); [|apply IH].
    cbn. constructor; [apply IH|].
    apply Forall_forall. intros n Hn.
    apply list_elem_of_fmap in Hn as (s & -> & Hs).
    apply elem_of_extracted in Hs as (j & _ & -> & _). lia.
Qed.

Lemma titled_block_flat (title body : string) :
  titled_block title body
  = "## " +:+ title +:+ nl +:+ nl +:+ body +:+ nl +:+ nl.
Proof. unfold titled_block. by rewrite !str_app_assoc. Qed.

Lemma header_for_flat (title : string) (t : datetime) :
  header_for title t
  = "# " +:+ title +:+ nl +:+ nl +:+ "*Generated on: " +:+ strftime_iso t
      +:+ "*" +:+ nl +:+ nl +:+ "---" +:+ nl +:+ nl.
Proof. unfold header_for. by rewrite !str_app_assoc. Qed.

(** ** A run that completes *)

Lemma written_prints (path : string) (lines : list string) :
  written path (map EvPrint lines) = [].
Proof. induction lines as [|l lines IH]; [done|]. apply IH. Qed.

Lemma lookup_of_content (m : gmap string string) (path s : string) :
  is_Some (m !! path) → content m path = s → m !! path = Some s.
Proof. unfold content. intros [x ->]. cbn. by intros ->. Qed.

(** When the crawl returns and no system call raises, [main] completes;
    the lemma names the state the loop ends in and relates it to the
    state the loop started in. *)
Lemma main_run (w : World) (agent : Agent)
    (pages : list crawl4ai.CrawlResult) (st : State) :
  no_faults w →
  arun w target_url main_config = Ok pages →
  let path := artifact_path w st in
  let sections := extracted w (agent_calls st) 1 pages in
  ∃ st_loop,
    process_results w agent {| output_dir := "out" |} path 1 pages
      (before_loop w pages st) = (Ok tt, st_loop)
    ∧ appended_to path (map section_block sections) (length pages)
        (before_loop w pages st) st_loop
    ∧ main w agent st
      = (Ok (Done completed), emit_lines (completion_report path) st_loop).
Proof.
  intros Hw Hcrawl path sections.
  destruct (process_results_spec w agent {| output_dir := "out" |} path pages
              Hw 1 (before_loop w pages st)) as (st_loop & Hloop & Happ).
  destruct (before_loop_fields w pages st) as (_ & _ & Hcalls & _).
  rewrite Hcalls in Happ.
  exists st_loop. split; [done|]. split; [done|].
  by apply (main_ok w agent pages).
Qed.

(** The artifact and the writes of a run that completes. *)
Lemma run_artifact (w : World) (pages : list crawl4ai.CrawlResult)
    (blocks : list string) (st st_loop : State) :
  let path := artifact_path w st in
  let st_end := emit_lines (completion_report path) st_loop in
  appended_to path blocks (length pages) (before_loop w pages st) st_loop →
  files st_end !! path
  = Some (artifact_header w st pages +:+ concat_str blocks)
  ∧ (∀ other, other ≠ path → files st_end !! other = files st !! other)
  ∧ written path (trace st_end)
    = written path (trace st) ++ artifact_header w st pages :: blocks
  ∧ agent_calls st_end = agent_calls st + length pages.
Proof.
  intros path st_end [].
  destruct (before_loop_fields w pages st) as (Hf & _ & Hc & Ht).
  destruct (emit_lines_fields (completion_report path) st_loop)
    as (Hf' & _ & _ & Ht' & _ & Ha' & _).
  subst st_end. rewrite Hf', Ht', Ha'. repeat split.
  - apply lookup_of_content.
    + apply at_present0. rewrite Hf, lookup_insert_eq. by eexists.
    + rewrite at_content0, Hf. by rewrite content_insert.
  - intros other Hne. rewrite at_others0, Hf by done.
    by rewrite lookup_insert_ne.
  - rewrite written_app, written_prints, app_nil_r, at_written0, Ht.
    rewrite !written_app, written_prints. cbn [written].
    rewrite String.eqb_refl. cbn [app]. by rewrite <- app_assoc.
  - by rewrite at_calls0, Hc.
Qed.

Lemma elem_of_written (path data : string) (tr : list event) :
  data ∈ written path tr → EvWrite path data ∈ tr.
Proof.
  induction tr as [|ev tr IH]; cbn [written]; [by intros ?%elem_of_nil|].
  destruct ev; try (intros H; apply list_elem_of_further; by apply IH).
  destruct (String.eqb path0 path) eqn:Heq.
  - apply String.eqb_eq in Heq as ->.
    intros [->|H]%elem_of_cons; [apply list_elem_of_here|].
    apply list_elem_of_further; by apply IH.
  - intros H. apply list_elem_of_further; by apply IH.
Qed.

Lemma length_extracted_le (w : World) (pages : list crawl4ai.CrawlResult)
    (calls i : nat) :
  length (extracted w calls i pages) ≤ length pages.
Proof.
  revert calls i. induction pages as [|page rest IH]; intros calls i; [done|].
  cbn [extracted length].
  destruct (agent_run w calls (extraction_prompt page)); cbn [length].
  - apply le_n_S, IH.
  - apply Nat.le_le_succ_r, IH.
Qed.

Lemma section_block_flat (s : section) :
  section_block s
  = "## " +:+ "Page " +:+ str_nat (sec_index s) +:+ ": "
      +:+ crawl4ai.url (sec_page s) +:+ nl +:+ nl
      +:+ sec_output s +:+ nl +:+ nl.
Proof.
  unfold section_block, section_title_of.
  by rewrite titled_block_flat, !str_app_assoc.
Qed.

Lemma final_summary_end (tr : list event) (before : list string)
    (a b : string) :
  printed tr = before ++ [a; b] → final_summary tr = [a; b].
Proof.
  intros H. unfold final_summary. rewrite H.
  rewrite length_app. cbn [length].
  replace (length before + 2 - 2) with (length before) by lia.
  by rewrite drop_app_length.
Qed.

(** ** The configuration of the agent *)

(** What [load_llm_config] answers, by what the file offers: it leaves
    the state as it was when it raises. *)
Lemma load_llm_config_cases (w : World) (st : State) :
  match load_llm_config w st with
  | (Ok v, st') =>
      config_file w = CfgJSON v
      ∧ contains "base_url" v = Ok true ∧ contains "api_key" v = Ok true
  | (Raise e, st') =>
      exn_cls e = LLMConfigError ∧ st' = st
      ∧ (config_file w = CfgAbsent
         ∨ (∃ e', config_file w = CfgUnreadable e')
         ∨ (∃ msg, config_file w = CfgInvalidJSON msg)
         ∨ ∃ v, config_file w = CfgJSON v
                ∧ ¬ (contains "base_url" v = Ok true
                     ∧ contains "api_key" v = Ok true))
  end.
Proof.
  unfold load_llm_config, try_except, bind, read_config, raise, ret, logger.
  destruct (config_file w) as [|e'|msg|v] eqn:Hcfg.
  - cbn [exn_cls]. split; [done|]. split; [done|]. by left.
  - destruct (exn_cls e'); cbn [exn_cls];
      (split; [done|]); (split; [done|]); right; left; by eexists.
  - cbn [exn_cls]. split; [done|]. split; [done|]. right; right; left.
    by eexists.
  - cbn [missing_among].
    destruct (contains "base_url" v) as [[]|e1] eqn:H1;
      destruct (contains "api_key" v) as [[]|e2] eqn:H2;
      try (destruct (exn_cls e1)); try (destruct (exn_cls e2));
      cbn [exn_cls]; try done;
      (split; [done|]); (split; [done|]); right; right; right;
      exists v; (split; [done|]); rewrite ?H1, ?H2; intros [? ?];
      discriminate.
Qed.

Lemma contains_object (field : string) (items : list (string * json)) :
  contains field (JDict items) = Ok (has_field field (JDict items)).
Proof. reflexivity. Qed.

(** A configuration that does not load stops the process in the import
    of [llm/agent.py]: one line is logged, and that is all. *)
Lemma process_without_config (w : World) (st : State) (e : exn) :
  load_llm_config w st = (Raise e, st) →
  process w st
  = (Raise (Raised LLMConfigError ("Failed to create agent: " +:+ str_exn e)),
     emit (EvLog "ERROR"
             ("Failed to initialize LLM agent: "
                +:+ "Failed to create agent: " +:+ str_exn e)) st).
Proof.
  intros Hload. unfold process, import_llm_agent, create_agent.
  erewrite bind_raise; [done|].
  erewrite try_except_raise.
  2:{ erewrite try_except_raise; [done|]. by erewrite bind_raise. }
  reflexivity.
Qed.

(** * The claims *)

(** C8. Every call of [append_to_markdown] with a section title (a
    title that is truthy, as the guard of the source reads it) and a
    content, when no system call raises, appends to the file exactly the
    header line [## title], a blank line, the content and a blank line;
    the file is flushed before it is closed: after the flush the file on
    disk already has its final content and the buffer is empty. *)
Theorem append_to_markdown_appends_titled_section (w : World)
    (fw : FileWriter) (path body title : string) (st : State) :
  no_faults w →
  truthy (Some title) = true →
  ∃ st_flushed st',
    append_until_flush w path (append_content body (Some title)) st
    = (Ok tt, st_flushed)
    ∧ append_to_markdown w fw path body (Some title) st = (Ok tt, st')
    ∧ files st'
      = <[path := content (files st) path
                    +:+ "## " +:+ title +:+ nl +:+ nl +:+ body +:+ nl +:+ nl]>
          (files st)
    ∧ trace st'
      = trace st
        ++ [EvOpen path ModeA;
            EvWrite path
              ("## " +:+ title +:+ nl +:+ nl +:+ body +:+ nl +:+ nl);
            EvFlush path; EvClose path]
    ∧ files st_flushed = files st'
    ∧ buffers st_flushed !! path = Some EmptyString
    ∧ buffers st' !! path = None.
Proof.
  intros Hw Ht.
  destruct (append_until_flush_ok w path (append_content body (Some title))
              st Hw) as (st_f & Hrun & Hfiles & Hbuf & Htrace).
  exists st_f, (after_append path (append_content body (Some title)) st).
  rewrite append_to_markdown_ok by done.
  rewrite append_content_titled, titled_block_flat in * by done.
  unfold after_append. cbn [files trace buffers].
  repeat split; try done.
  - by rewrite Hbuf, lookup_insert_eq.
  - by rewrite lookup_delete_eq.
Qed.

Lemma append_to_markdown_appends_titled_section_witness :
  ∃ st_flushed st',
    append_until_flush calm_world "out/a.md"
      (append_content "body" (Some "Page 1: u")) fresh
    = (Ok tt, st_flushed)
    ∧ append_to_markdown calm_world out_writer "out/a.md" "body"
        (Some "Page 1: u") fresh = (Ok tt, st')
    ∧ files st'
      = <["out/a.md" := content (files fresh) "out/a.md"
                    +:+ "## " +:+ "Page 1: u" +:+ nl +:+ nl +:+ "body"
                    +:+ nl +:+ nl]>
          (files fresh)
    ∧ trace st'
      = trace fresh
        ++ [EvOpen "out/a.md" ModeA;
            EvWrite "out/a.md"
              ("## " +:+ "Page 1: u" +:+ nl +:+ nl +:+ "body" +:+ nl +:+ nl);
            EvFlush "out/a.md"; EvClose "out/a.md"]
    ∧ files st_flushed = files st'
    ∧ buffers st_flushed !! "out/a.md" = Some EmptyString
    ∧ buffers st' !! "out/a.md" = None.
Proof.
  apply (append_to_markdown_appends_titled_section calm_world out_writer
           "out/a.md" "body" "Page 1: u" fresh).
  - intros n. reflexivity.
  - reflexivity.
Defined.

(** An empty or absent title is no title: only the content and the
    blank line are appended. *)
Lemma append_to_markdown_untitled (w : World) (fw : FileWriter)
    (path body : string) (title : option string) (st : State) :
  no_faults w →
  truthy title = false →
  append_to_markdown w fw path body title st
  = (Ok tt, after_append path (body +:+ nl +:+ nl) st).
Proof.
  intros Hw Ht. rewrite append_to_markdown_ok by done.
  unfold append_content. by rewrite Ht.
Qed.

(** C9. When [initialize_streaming_markdown] is called a second time on
    the path a first call returned, whatever was appended in between,
    the file holds after the second call exactly the header of the
    second call: its title line, its generation timestamp and the
    separator. Nothing of what the file held before is left. *)
Theorem initialize_twice_restarts_artifact (w : World) (fw : FileWriter)
    (base1 base2 : string) (title1 : option string) (title2 : string)
    (ts1 ts2 : bool) (appended : list (string * option string))
    (st0 st1 st2 st3 : State) (path : string) :
  initialize_streaming_markdown w fw base1 title1 ts1 st0 = (Ok path, st1) →
  append_all w fw path appended st1 = (Ok tt, st2) →
  initialize_streaming_markdown w fw base2 (Some title2) ts2 st2
  = (Ok path, st3) →
  truthy (Some title2) = true →
  files st3 !! path
  = Some ("# " +:+ title2 +:+ nl +:+ nl
            +:+ "*Generated on: "
            +:+ strftime_iso (now w (header_reading ts2 st2)) +:+ "*"
            +:+ nl +:+ nl +:+ "---" +:+ nl +:+ nl)
  ∧ buffers st3 !! path = None
  ∧ ∀ other, other ≠ path → files st3 !! other = files st2 !! other.
Proof.
  intros _ _ H2 Ht.
  apply initialize_inv in H2 as [Hpath ->].
  unfold after_init. cbn [files buffers].
  rewrite lookup_insert_eq, lookup_delete_eq.
  repeat split.
  - f_equal. destruct title2; [done|]. apply header_for_flat.
  - intros other Hne. rewrite lookup_insert_ne by done.
    unfold init_clock. by destruct ts2, (truthy (Some title2)).
Qed.

Lemma initialize_twice_restarts_artifact_witness :
  files notes_restarted !! notes_path
  = Some ("# " +:+ "Second" +:+ nl +:+ nl
            +:+ "*Generated on: "
            +:+ strftime_iso (now calm_world (header_reading true notes_grown))
            +:+ "*" +:+ nl +:+ nl +:+ "---" +:+ nl +:+ nl)
  ∧ buffers notes_restarted !! notes_path = None
  ∧ ∀ other, other ≠ notes_path →
             files notes_restarted !! other = files notes_grown !! other.
Proof.
  apply (initialize_twice_restarts_artifact calm_world out_writer
           "notes" "notes" (Some "First") "Second" true true
           [("body", Some "Page 1: u")] fresh notes_started notes_grown
           notes_restarted notes_path).
  - vm_compute. reflexivity.
  - vm_compute. reflexivity.
  - vm_compute. reflexivity.
  - reflexivity.
Defined.

(** C10. Called with no title, [initialize_streaming_markdown] still
    creates or truncates the file and returns its path when no system
    call raises; what it writes is the empty string, the clock is read
    for the name of the file only, and the file is left empty. *)
Theorem initialize_without_title_leaves_empty_file (w : World)
    (fw : FileWriter) (base_filename : string) (timestamp : bool)
    (st : State) :
  no_faults w →
  let path := init_path w fw base_filename timestamp st in
  ∃ st',
    initialize_streaming_markdown w fw base_filename None timestamp st
    = (Ok path, st')
    ∧ files st' = <[path := EmptyString]> (files st)
    ∧ trace st'
      = trace st ++ [EvOpen path ModeW; EvWrite path EmptyString;
                     EvClose path]
    ∧ clock_reads st'
      = (if timestamp then S (clock_reads st) else clock_reads st).
Proof.
  intros Hw path. eexists. split; [by apply initialize_ok|].
  unfold after_init, init_clock, init_header. cbn [files trace clock_reads truthy].
  by destruct timestamp.
Qed.

Lemma initialize_without_title_leaves_empty_file_witness :
  ∃ st',
    initialize_streaming_markdown calm_world out_writer "My Notes" None
      true fresh
    = (Ok (init_path calm_world out_writer "My Notes" true fresh), st')
    ∧ files st'
      = <[init_path calm_world out_writer "My Notes" true fresh
            := EmptyString]> (files fresh)
    ∧ trace st'
      = trace fresh
        ++ [EvOpen (init_path calm_world out_writer "My Notes" true fresh)
              ModeW;
            EvWrite (init_path calm_world out_writer "My Notes" true fresh)
              EmptyString;
            EvClose (init_path calm_world out_writer "My Notes" true fresh)]
    ∧ clock_reads st' = S (clock_reads fresh).
Proof.
  apply (initialize_without_title_leaves_empty_file calm_world out_writer
           "My Notes" true fresh).
  intros n. reflexivity.
Defined.

(** C3. The configuration of the crawler carries the chain made of the
    URL-pattern filter, the domain filter and the content-type filter,
    in this order, over the constants of [util/constants.py]. Whatever
    the filters answer, a link is admitted exactly when all three accept
    it, and the filter that rejects a link is the first of the three
    that does not accept it. The chain does not depend on the
    [include_external] flag (nor on the depth or on [verbose]). *)
Theorem crawler_filter_chain (max_depth : Z) (include_external verbose : bool) :
  let chain :=
    crawl4ai.filter_chain
      (crawl4ai.deep_crawl_strategy
         (_config (WebCrawler_init max_depth include_external verbose))) in
  let by_pattern := crawl4ai.URLPatternFilter URL_PATTERNS in
  let by_domain := crawl4ai.DomainFilter ALLOWED_DOMAINS in
  let by_type := crawl4ai.ContentTypeFilter ALLOWED_CONTENT_TYPES in
  chain = [by_pattern; by_domain; by_type]
  ∧ (∀ (candidate : Type) (accepts : crawl4ai.url_filter → candidate → bool)
       (c : candidate),
       crawl4ai.admit_link accepts chain c
       = accepts by_pattern c && accepts by_domain c && accepts by_type c)
  ∧ (∀ (candidate : Type) (accepts : crawl4ai.url_filter → candidate → bool)
       (c : candidate),
       crawl4ai.first_rejection accepts chain c
       = if negb (accepts by_pattern c) then Some by_pattern
         else if negb (accepts by_domain c) then Some by_domain
         else if negb (accepts by_type c) then Some by_type
         else None)
  ∧ (∀ (depth' : Z) (external' verbose' : bool),
       crawl4ai.filter_chain
         (crawl4ai.deep_crawl_strategy
            (_config (WebCrawler_init depth' external' verbose')))
       = chain)
  ∧ crawl4ai.include_external
      (crawl4ai.deep_crawl_strategy
         (_config (WebCrawler_init max_depth include_external verbose)))
    = include_external.
Proof.
  cbv zeta. repeat split.
  - intros candidate accepts c. unfold crawl4ai.admit_link. cbn.
    by destruct (accepts _ c), (accepts _ c), (accepts _ c).
  - intros candidate accepts c. cbn.
    by destruct (accepts _ c), (accepts _ c), (accepts _ c).
Qed.

(** C5. When the crawl of the root URL fails (the engine raises),
    [crawl] raises an exception whose message names the URL, and [main]
    ends at once in [Done failed]: the agent is never called, no system
    call touches the file system (no directory is made, no file is
    opened), the disk is as it was, and the last line printed reports
    the error. *)
Theorem crawl_failure_ends_the_run (w : World) (agent : Agent) (st : State)
    (e : exn) :
  arun w target_url main_config = Raise e →
  let crawl_error :=
    Raised Exception
      ("Failed to crawl " +:+ target_url +:+ ": " +:+ str_exn e) in
  (∀ st0, (crawl w (WebCrawler_init 2 true true) target_url st0).1
          = Raise crawl_error)
  ∧ ∃ st_end,
      main w agent st = (Ok (Done failed), st_end)
      ∧ files st_end = files st
      ∧ dirs st_end = dirs st
      ∧ buffers st_end = buffers st
      ∧ io_count st_end = io_count st
      ∧ agent_calls st_end = agent_calls st
      ∧ clock_reads st_end = clock_reads st
      ∧ trace st_end
        = trace st ++ map EvPrint banner
            ++ [EvCrawl target_url;
                EvPrint ("❌ Error during crawl: " +:+ str_exn crawl_error)].
Proof.
  intros Hcrawl crawl_error. split.
  - intros st0. by rewrite (crawl_raise _ _ _ _ _ Hcrawl).
  - eexists. split.
    + unfold main. rewrite bind_print.
      erewrite bind_ok by apply print_all_ok.
      rewrite !bind_print.
      erewrite try_except_raise.
      2:{ rewrite bind_print. erewrite bind_raise; [done|].
          apply crawl_raise, Hcrawl. }
      rewrite bind_print, banner_state. reflexivity.
    + destruct (emit_lines_fields banner st)
        as (Hf & Hd & Hb & Ht & Hi & Ha & Hc).
      unfold_state. rewrite Hf, Hd, Hb, Ht, Hi, Ha, Hc.
      repeat split; try done. by rewrite <- !app_assoc.
Qed.

Lemma crawl_failure_ends_the_run_witness :
  (∀ st0, (crawl unreachable_world (WebCrawler_init 2 true true) target_url
             st0).1
          = Raise (Raised Exception
                     ("Failed to crawl " +:+ target_url +:+ ": "
                        +:+ "net::ERR_NAME_NOT_RESOLVED")))
  ∧ ∃ st_end,
      main unreachable_world the_agent fresh = (Ok (Done failed), st_end)
      ∧ files st_end = files fresh
      ∧ dirs st_end = dirs fresh
      ∧ buffers st_end = buffers fresh
      ∧ io_count st_end = io_count fresh
      ∧ agent_calls st_end = agent_calls fresh
      ∧ clock_reads st_end = clock_reads fresh
      ∧ trace st_end
        = trace fresh ++ map EvPrint banner
            ++ [EvCrawl target_url;
                EvPrint ("❌ Error during crawl: "
                           +:+ "Failed to crawl " +:+ target_url +:+ ": "
                           +:+ "net::ERR_NAME_NOT_RESOLVED")].
Proof.
  apply (crawl_failure_ends_the_run unreachable_world the_agent fresh
           (Raised OSError "net::ERR_NAME_NOT_RESOLVED")).
  reflexivity.
Defined.

(** C1. Whatever pages the crawl returns, if the extraction of the page
    at position [k] raises (and no system call on the file system
    raises), the loop prints the error and goes on with the page after
    it, from the very files it had before that page; the run ends in
    [Done completed]; the artifact holds the header and the sections of
    exactly the pages whose extraction succeeded: one for every other
    page that was extracted, none for page [k]. *)
Theorem failed_extraction_skips_the_page (w : World) (agent : Agent)
    (st : State) (pages : list crawl4ai.CrawlResult) (k : nat)
    (page : crawl4ai.CrawlResult) (e : exn) :
  no_faults w →
  arun w target_url main_config = Ok pages →
  pages !! k = Some page →
  outcome w (agent_calls st) pages k = Some (Raise e) →
  let path := artifact_path w st in
  let fw := {| output_dir := "out" |} in
  let sections := extracted w (agent_calls st) 1 pages in
  ∃ st_k st_end,
    process_results w agent fw path 1 (take k pages) (before_loop w pages st)
    = (Ok tt, st_k)
    ∧ process_results w agent fw path 1 pages (before_loop w pages st)
      = process_results w agent fw path (S (S k)) (drop (S k) pages)
          (after_skip page e st_k)
    ∧ main w agent st = (Ok (Done completed), st_end)
    ∧ EvPrint (extraction_error_line page e) ∈ trace st_end
    ∧ files st_end !! path
      = Some (artifact_header w st pages
                +:+ concat_str (map section_block sections))
    ∧ written path (trace st_end)
      = written path (trace st)
          ++ artifact_header w st pages :: map section_block sections
    ∧ (∀ s, s ∈ sections → sec_index s ≠ S k)
    ∧ (∀ j page_j output,
         j ≠ k → pages !! j = Some page_j →
         outcome w (agent_calls st) pages j = Some (Ok output) →
         {| sec_index := S j; sec_page := page_j; sec_output := output |}
           ∈ sections).
Proof.
  intros Hw Hcrawl Hk Hout path fw sections.
  assert (agent_run w (agent_calls st + k) (extraction_prompt page) = Raise e)
    as Hraise.
  { unfold outcome in Hout. rewrite Hk in Hout. by injection Hout. }
  destruct (main_run w agent pages st Hw Hcrawl)
    as (st_loop & Hloop & Happ & Hmain).
  fold path fw in Hloop, Happ, Hmain.
  destruct (process_results_spec w agent fw path (take k pages) Hw 1
              (before_loop w pages st)) as (st_k & Hpre & Hpre_app).
  assert (length (take k pages) = k) as Hlen.
  { apply length_take_le, Nat.lt_le_incl, (lookup_lt_Some _ _ _ Hk). }
  assert (agent_calls st_k = agent_calls st + k) as Hcalls.
  { rewrite (at_calls _ _ _ _ _ Hpre_app), Hlen.
    by destruct (before_loop_fields w pages st) as (_ & _ & -> & _). }
  assert (process_results w agent fw path 1 pages (before_loop w pages st)
          = process_results w agent fw path (S (S k)) (drop (S k) pages)
              (after_skip page e st_k)) as Hstep.
  { rewrite <- (take_drop_middle pages k page Hk) at 1.
    rewrite (process_results_app _ _ _ _ _ _ Hw _ _ _ Hpre), Hlen.
    apply process_results_skip. by rewrite Hcalls. }
  exists st_k, (emit_lines (completion_report path) st_loop).
  destruct (run_artifact w pages _ st st_loop Happ) as (Hfile & _ & Hwr & _).
  repeat split; try done.
  - destruct (process_results_spec w agent fw path (drop (S k) pages) Hw
                (S (S k)) (after_skip page e st_k)) as (st' & Hpost & Hpost_app).
    rewrite Hstep, Hpost in Hloop. injection Hloop as <-.
    destruct (at_trace _ _ _ _ _ Hpost_app) as [rest Hrest].
    destruct (emit_lines_fields (completion_report path) st')
      as (_ & _ & _ & -> & _).
    rewrite Hrest. cbn [after_skip trace].
    rewrite !elem_of_app. left. left. right.
    do 2 apply list_elem_of_further. apply list_elem_of_here.
  - intros s Hs Hidx.
    apply elem_of_extracted_outcome in Hs as (j & _ & Hj & Ho).
    assert (j = k) as -> by lia. rewrite Hout in Ho. discriminate.
  - intros j page_j output _ Hj Ho.
    apply elem_of_extracted_outcome. by exists j.
Qed.

Lemma failed_extraction_skips_the_page_witness :
  let path := artifact_path rough_world fresh in
  let fw := {| output_dir := "out" |} in
  let sections := extracted rough_world (agent_calls fresh) 1 two_pages in
  ∃ st_k st_end,
    process_results rough_world the_agent fw path 1 (take 1 two_pages)
      (before_loop rough_world two_pages fresh)
    = (Ok tt, st_k)
    ∧ process_results rough_world the_agent fw path 1 two_pages
        (before_loop rough_world two_pages fresh)
      = process_results rough_world the_agent fw path 3 (drop 2 two_pages)
          (after_skip guide_page too_large st_k)
    ∧ main rough_world the_agent fresh = (Ok (Done completed), st_end)
    ∧ EvPrint (extraction_error_line guide_page too_large) ∈ trace st_end
    ∧ files st_end !! path
      = Some (artifact_header rough_world fresh two_pages
                +:+ concat_str (map section_block sections))
    ∧ written path (trace st_end)
      = written path (trace fresh)
          ++ artifact_header rough_world fresh two_pages
               :: map section_block sections
    ∧ (∀ s, s ∈ sections → sec_index s ≠ 2)
    ∧ (∀ j page_j output,
         j ≠ 1 → two_pages !! j = Some page_j →
         outcome rough_world (agent_calls fresh) two_pages j
         = Some (Ok output) →
         {| sec_index := S j; sec_page := page_j; sec_output := output |}
           ∈ sections).
Proof.
  apply (failed_extraction_skips_the_page rough_world the_agent fresh
           two_pages 1 guide_page too_large).
  - intros n. reflexivity.
  - reflexivity.
  - reflexivity.
  - reflexivity.
Defined.

(** C2. When the crawl returns and no system call raises, the writes to
    the artifact are its header and then one block for each successful
    extraction, [N] blocks for [N] successes, in the order of the
    pages; each block starts with the line of its title; the artifact
    holds exactly these, and after any number of pages the file of that
    moment is a prefix of the final file, the later writes coming after
    the earlier ones. *)
Theorem sections_are_appended_in_page_order (w : World) (agent : Agent)
    (st : State) (pages : list crawl4ai.CrawlResult) :
  no_faults w →
  arun w target_url main_config = Ok pages →
  let path := artifact_path w st in
  let fw := {| output_dir := "out" |} in
  let sections := extracted w (agent_calls st) 1 pages in
  ∃ st_end,
    main w agent st = (Ok (Done completed), st_end)
    ∧ length sections = successes w (agent_calls st) pages
    ∧ written path (trace st_end)
      = written path (trace st)
          ++ artifact_header w st pages :: map section_block sections
    ∧ files st_end !! path
      = Some (artifact_header w st pages
                +:+ concat_str (map section_block sections))
    ∧ StronglySorted lt (map sec_index sections)
    ∧ (∀ s, s ∈ sections →
         ∃ j, sec_index s = S j
              ∧ pages !! j = Some (sec_page s)
              ∧ outcome w (agent_calls st) pages j = Some (Ok (sec_output s))
              ∧ section_block s
                = "## " +:+ section_title_of (sec_index s) (sec_page s)
                    +:+ nl +:+ nl +:+ sec_output s +:+ nl +:+ nl)
    ∧ (∀ n, n ≤ length pages →
         ∃ st_n later_text later_writes,
           process_results w agent fw path 1 (take n pages)
             (before_loop w pages st) = (Ok tt, st_n)
           ∧ content (files st_end) path
             = content (files st_n) path +:+ later_text
           ∧ written path (trace st_end)
             = written path (trace st_n) ++ later_writes).
Proof.
  intros Hw Hcrawl path fw sections.
  destruct (main_run w agent pages st Hw Hcrawl)
    as (st_loop & Hloop & Happ & Hmain).
  fold path fw in Hloop, Happ, Hmain.
  destruct (run_artifact w pages _ st st_loop Happ) as (Hfile & _ & Hwr & _).
  exists (emit_lines (completion_report path) st_loop).
  split; [done|]. split; [apply length_extracted|].
  split; [done|]. split; [done|]. split; [apply extracted_sorted|]. split.
  - intros s Hs.
    apply elem_of_extracted_outcome in Hs as (j & Hj & Hi & Ho).
    exists j. repeat split; try done.
    unfold section_block. apply titled_block_flat.
  - intros n Hn.
    destruct (process_results_spec w agent fw path (take n pages) Hw 1
                (before_loop w pages st)) as (st_n & Hpre & _).
    destruct (process_results_spec w agent fw path (drop n pages) Hw
                (1 + length (take n pages)) st_n) as (st' & Hpost & Hpost_app).
    pose proof (process_results_app w agent fw path (take n pages)
                  (drop n pages) Hw 1 _ st_n Hpre) as Hsplit.
    rewrite take_drop, Hloop, Hpost in Hsplit.
    injection Hsplit as ->.
    destruct (emit_lines_fields (completion_report path) st')
      as (Hf & _ & _ & Ht & _).
    eexists st_n, _, _. split; [done|]. rewrite Hf, Ht. split.
    + apply (at_content _ _ _ _ _ Hpost_app).
    + rewrite written_app, written_prints, app_nil_r.
      apply (at_written _ _ _ _ _ Hpost_app).
Qed.

Lemma sections_are_appended_in_page_order_witness :
  let path := artifact_path rough_world fresh in
  let fw := {| output_dir := "out" |} in
  let sections := extracted rough_world (agent_calls fresh) 1 two_pages in
  ∃ st_end,
    main rough_world the_agent fresh = (Ok (Done completed), st_end)
    ∧ length sections = successes rough_world (agent_calls fresh) two_pages
    ∧ written path (trace st_end)
      = written path (trace fresh)
          ++ artifact_header rough_world fresh two_pages
               :: map section_block sections
    ∧ files st_end !! path
      = Some (artifact_header rough_world fresh two_pages
                +:+ concat_str (map section_block sections))
    ∧ StronglySorted lt (map sec_index sections)
    ∧ (∀ s, s ∈ sections →
         ∃ j, sec_index s = S j
              ∧ two_pages !! j = Some (sec_page s)
              ∧ outcome rough_world (agent_calls fresh) two_pages j
                = Some (Ok (sec_output s))
              ∧ section_block s
                = "## " +:+ section_title_of (sec_index s) (sec_page s)
                    +:+ nl +:+ nl +:+ sec_output s +:+ nl +:+ nl)
    ∧ (∀ n, n ≤ length two_pages →
         ∃ st_n later_text later_writes,
           process_results rough_world the_agent fw path 1 (take n two_pages)
             (before_loop rough_world two_pages fresh) = (Ok tt, st_n)
           ∧ content (files st_end) path
             = content (files st_n) path +:+ later_text
           ∧ written path (trace st_end)
             = written path (trace st_n) ++ later_writes).
Proof.
  apply (sections_are_appended_in_page_order rough_world the_agent fresh
           two_pages).
  - intros n. reflexivity.
  - reflexivity.
Defined.

(** C6, as the specification words it, fails: the title of a section is
    not the URL of its page. In the run of [calm_world] the blocks
    written after the header are titled [Page 1: <url>] and
    [Page 2: <url>], and differ from the blocks the URLs alone would
    title. *)
Lemma section_title_is_not_the_bare_url :
  (main calm_world the_agent fresh).1 = Ok (Done completed)
  ∧ written (artifact_path calm_world fresh)
      (trace (main calm_world the_agent fresh).2)
    = [artifact_header calm_world fresh two_pages;
       titled_block "Page 1: https://example.com/docs/" "extract";
       titled_block "Page 2: https://example.com/docs/guide" "extract"]
  ∧ map url_titled_block (extracted calm_world 0 1 two_pages)
    = [titled_block "https://example.com/docs/" "extract";
       titled_block "https://example.com/docs/guide" "extract"]
  ∧ written (artifact_path calm_world fresh)
      (trace (main calm_world the_agent fresh).2)
    ≠ artifact_header calm_world fresh two_pages
        :: map url_titled_block (extracted calm_world 0 1 two_pages).
Proof.
  split; [by vm_compute|]. split; [by vm_compute|].
  split; [by vm_compute|]. by vm_compute.
Qed.

(** C6, amended. When the crawl returns and no system call raises, the
    section appended for a page whose extraction succeeds is titled
    [Page i: <url>], where [i] is the position of the page in the crawl
    counted from 1 (skipped pages count) and [<url>] is the URL of the
    page; the run writes this block to the artifact, and writes no
    other block after the header. *)
Theorem section_title_is_position_and_url (w : World) (agent : Agent)
    (st : State) (pages : list crawl4ai.CrawlResult) :
  no_faults w →
  arun w target_url main_config = Ok pages →
  let path := artifact_path w st in
  let sections := extracted w (agent_calls st) 1 pages in
  ∃ st_end,
    main w agent st = (Ok (Done completed), st_end)
    ∧ (∀ j page output,
         pages !! j = Some page →
         outcome w (agent_calls st) pages j = Some (Ok output) →
         EvWrite path
           ("## " +:+ "Page " +:+ str_nat (S j) +:+ ": "
              +:+ crawl4ai.url page +:+ nl +:+ nl +:+ output +:+ nl +:+ nl)
           ∈ trace st_end)
    ∧ (∀ data, data ∈ written path (trace st_end) →
         data ∈ written path (trace st)
         ∨ data = artifact_header w st pages
         ∨ ∃ j page output,
             pages !! j = Some page
             ∧ outcome w (agent_calls st) pages j = Some (Ok output)
             ∧ data = "## " +:+ "Page " +:+ str_nat (S j) +:+ ": "
                        +:+ crawl4ai.url page +:+ nl +:+ nl
                        +:+ output +:+ nl +:+ nl).
Proof.
  intros Hw Hcrawl path sections. subst path sections.
  destruct (main_run w agent pages st Hw Hcrawl)
    as (st_loop & Hloop & Happ & Hmain).
  destruct (run_artifact w pages _ st st_loop Happ) as (_ & _ & Hwr & _).
  exists (emit_lines (completion_report (artifact_path w st)) st_loop).
  split; [done|]. split.
  - intros j page output Hj Ho. apply elem_of_written.
    rewrite Hwr. apply elem_of_app. right.
    apply list_elem_of_further, list_elem_of_fmap.
    exists {| sec_index := S j; sec_page := page; sec_output := output |}.
    split; [by rewrite section_block_flat|].
    apply elem_of_extracted_outcome. by exists j.
  - intros data. rewrite Hwr.
    intros [Hold|[->|Hnew]%elem_of_cons]%elem_of_app; [by left|by right; left|].
    right; right.
    apply list_elem_of_fmap in Hnew as (s & -> & Hs).
    apply elem_of_extracted_outcome in Hs as (j & Hj & Hi & Ho).
    exists j, (sec_page s), (sec_output s).
    split; [done|]. split; [done|].
    rewrite section_block_flat. cbn in Hi. by rewrite Hi.
Qed.

Lemma section_title_is_position_and_url_witness :
  let path := artifact_path rough_world fresh in
  ∃ st_end,
    main rough_world the_agent fresh = (Ok (Done completed), st_end)
    ∧ (∀ j page output,
         two_pages !! j = Some page →
         outcome rough_world (agent_calls fresh) two_pages j
         = Some (Ok output) →
         EvWrite path
           ("## " +:+ "Page " +:+ str_nat (S j) +:+ ": "
              +:+ crawl4ai.url page +:+ nl +:+ nl +:+ output +:+ nl +:+ nl)
           ∈ trace st_end)
    ∧ (∀ data, data ∈ written path (trace st_end) →
         data ∈ written path (trace fresh)
         ∨ data = artifact_header rough_world fresh two_pages
         ∨ ∃ j page output,
             two_pages !! j = Some page
             ∧ outcome rough_world (agent_calls fresh) two_pages j
               = Some (Ok output)
             ∧ data = "## " +:+ "Page " +:+ str_nat (S j) +:+ ": "
                        +:+ crawl4ai.url page +:+ nl +:+ nl
                        +:+ output +:+ nl +:+ nl).
Proof.
  apply (section_title_is_position_and_url rough_world the_agent fresh
           two_pages).
  - intros n. reflexivity.
  - reflexivity.
Defined.

(** C7, as the specification words it, fails: the final summary carries
    neither count. Three runs complete: one crawls two pages and writes
    two sections, one crawls two pages and writes one section, one
    crawls one page and writes one section (the writes to the artifact
    are its header and its sections). Their final summaries are the
    same two lines: the completion message and the path of the
    artifact. The last part is all that the second run prints: the
    number of pages is in one line before the loop, and no line gives a
    number of sections. *)
Lemma final_summary_carries_no_count :
  let summary :=
    [nl +:+ "✅ Crawl completed successfully!";
     "📄 All results saved to: out/walmart_design_toolkit_20250601_120000.md"]
  in
  ((main calm_world the_agent fresh).1 = Ok (Done completed)
   ∧ length (written (artifact_path calm_world fresh)
               (trace (main calm_world the_agent fresh).2)) = 1 + 2
   ∧ final_summary (trace (main calm_world the_agent fresh).2) = summary)
  ∧ ((main rough_world the_agent fresh).1 = Ok (Done completed)
     ∧ length (written (artifact_path rough_world fresh)
                 (trace (main rough_world the_agent fresh).2)) = 1 + 1
     ∧ final_summary (trace (main rough_world the_agent fresh).2) = summary)
  ∧ ((main lone_world the_agent fresh).1 = Ok (Done completed)
     ∧ length (written (artifact_path lone_world fresh)
                 (trace (main lone_world the_agent fresh).2)) = 1 + 1
     ∧ final_summary (trace (main lone_world the_agent fresh).2) = summary)
  ∧ printed (trace (main rough_world the_agent fresh).2)
    = ["Web Crawler Configuration:";
       "  max_depth: 2";
       "  include_external: True";
       "  verbose: True";
       "  strategy: BFSDeepCrawlStrategy";
       "  scraping_strategy: LXMLWebScrapingStrategy";
       EmptyString;
       "Target URL: https://digitaltoolkit.livingdesign.walmart.com/develop/react/";
       "============================================================";
       "Starting crawl of: https://digitaltoolkit.livingdesign.walmart.com/develop/react/";
       "Successfully crawled 2 pages";
       "📄 Streaming results to: out/walmart_design_toolkit_20250601_120000.md";
       nl +:+ "🤖 >> Extracting information from https://example.com/docs/";
       nl +:+ "🤖 >> Extracted information from https://example.com/docs/";
       "✅ >> Appended results for https://example.com/docs/ to markdown file";
       nl +:+ "🤖 >> Extracting information from https://example.com/docs/guide";
       "❌ Error extracting information from https://example.com/docs/guide: prompt is too long";
       nl +:+ "✅ Crawl completed successfully!";
       "📄 All results saved to: out/walmart_design_toolkit_20250601_120000.md"].
Proof. by vm_compute. Qed.

(** C7, amended. When the crawl returns and no system call raises, the
    run ends in [Done completed], and what it prints is known line by
    line. The number of pages crawled is printed once, before the loop,
    in the line [Successfully crawled N pages]: no other line of the
    run gives a page count. The loop prints two lines for a page whose
    extraction fails and three for a page whose section is written,
    each of them about that one page. After the last page the run
    prints its final summary, which is the completion message and the
    path of the artifact. So the number of sections written, which is
    the number of successful extractions and at most the number of
    pages, is not printed as a total: it can only be counted from the
    lines of the pages. *)
Theorem completed_run_reports_pages_then_path (w : World) (agent : Agent)
    (st : State) (pages : list crawl4ai.CrawlResult) :
  no_faults w →
  arun w target_url main_config = Ok pages →
  let path := artifact_path w st in
  let sections := extracted w (agent_calls st) 1 pages in
  let page_count :=
    "Successfully crawled " +:+ str_nat (length pages) +:+ " pages" in
  let before_count := banner in
  let after_count :=
    ["📄 Streaming results to: " +:+ path]
    ++ loop_lines w (agent_calls st) pages
    ++ [nl +:+ "✅ Crawl completed successfully!";
        "📄 All results saved to: " +:+ path] in
  ∃ st_end,
    main w agent st = (Ok (Done completed), st_end)
    ∧ printed (trace st_end)
      = printed (trace st) ++ before_count ++ [page_count] ++ after_count
    ∧ final_summary (trace st_end)
      = [nl +:+ "✅ Crawl completed successfully!";
         "📄 All results saved to: " +:+ path]
    ∧ gives_page_count page_count = true
    ∧ Forall (λ line, gives_page_count line = false)
        (before_count ++ after_count)
    ∧ Forall (λ line, ∃ page, page ∈ pages ∧ about_page page line)
        (loop_lines w (agent_calls st) pages)
    ∧ length (loop_lines w (agent_calls st) pages)
      = 2 * length pages + length sections
    ∧ length (written path (trace st_end))
      = length (written path (trace st)) + 1 + length sections
    ∧ length sections = successes w (agent_calls st) pages
    ∧ length sections ≤ length pages.
Proof.
  intros Hw Hcrawl path sections page_count before_count after_count.
  subst path sections page_count before_count after_count.
  destruct (main_run w agent pages st Hw Hcrawl)
    as (st_loop & Hloop & Happ & Hmain).
  destruct (run_artifact w pages _ st st_loop Happ) as (_ & _ & Hwr & _).
  destruct (before_loop_counts w pages st) as (_ & Hbefore).
  destruct (before_loop_fields w pages st) as (_ & _ & Hcalls & _).
  pose proof (process_results_printed w agent _ _ pages Hw _ _ _ Hloop)
    as Hprinted_loop.
  rewrite Hcalls, Hbefore in Hprinted_loop.
  assert (printed (trace (emit_lines (completion_report (artifact_path w st))
                            st_loop))
          = (printed (trace st) ++ banner
               ++ [crawled_line pages;
                   "📄 Streaming results to: " +:+ artifact_path w st]
               ++ loop_lines w (agent_calls st) pages)
              ++ completion_report (artifact_path w st)) as Hprinted.
  { by rewrite printed_emit_lines, Hprinted_loop, <- !app_assoc. }
  exists (emit_lines (completion_report (artifact_path w st)) st_loop).
  split; [done|]. split; [|split; [|split; [|split; [|split; [|split;
    [|split; [|split]]]]]]].
  - rewrite Hprinted. unfold crawled_line, completion_report.
    by rewrite <- !app_assoc.
  - apply (final_summary_end _ _ _ _ Hprinted).
  - unfold gives_page_count.
    generalize (str_nat (length pages) +:+ " pages"). by intros [|c s].
  - apply Forall_app. split; [apply banner_gives_no_count|].
    apply Forall_app. split; [by repeat constructor|].
    apply Forall_app. split; [apply loop_lines_give_no_count|].
    by repeat constructor.
  - apply loop_lines_about_pages.
  - apply length_loop_lines.
  - rewrite Hwr, length_app. cbn [length]. rewrite length_map. lia.
  - apply length_extracted.
  - apply length_extracted_le.
Qed.

Lemma completed_run_reports_pages_then_path_witness :
  let path := artifact_path rough_world fresh in
  let sections := extracted rough_world (agent_calls fresh) 1 two_pages in
  let page_count :=
    "Successfully crawled " +:+ str_nat (length two_pages) +:+ " pages" in
  let before_count := banner in
  let after_count :=
    ["📄 Streaming results to: " +:+ path]
    ++ loop_lines rough_world (agent_calls fresh) two_pages
    ++ [nl +:+ "✅ Crawl completed successfully!";
        "📄 All results saved to: " +:+ path] in
  ∃ st_end,
    main rough_world the_agent fresh = (Ok (Done completed), st_end)
    ∧ printed (trace st_end)
      = printed (trace fresh) ++ before_count ++ [page_count] ++ after_count
    ∧ final_summary (trace st_end)
      = [nl +:+ "✅ Crawl completed successfully!";
         "📄 All results saved to: " +:+ path]
    ∧ gives_page_count page_count = true
    ∧ Forall (λ line, gives_page_count line = false)
        (before_count ++ after_count)
    ∧ Forall (λ line, ∃ page, page ∈ two_pages ∧ about_page page line)
        (loop_lines rough_world (agent_calls fresh) two_pages)
    ∧ length (loop_lines rough_world (agent_calls fresh) two_pages)
      = 2 * length two_pages + length sections
    ∧ length (written path (trace st_end))
      = length (written path (trace fresh)) + 1 + length sections
    ∧ length sections = successes rough_world (agent_calls fresh) two_pages
    ∧ length sections ≤ length two_pages.
Proof.
  apply (completed_run_reports_pages_then_path rough_world the_agent fresh
           two_pages).
  - intros n. reflexivity.
  - reflexivity.
Defined.

(** C4, as the specification words it, fails in its "only if": a
    configuration file that exists and cannot be read is none of the
    three causes the specification lists, and loading it fails all the
    same, with the catch-all of [load_llm_config]. *)
Lemma unreadable_config_fails_to_load :
  config_file locked_world = CfgUnreadable permission_denied
  ∧ stated_failure (config_file locked_world) = false
  ∧ is_ok (load_llm_config locked_world fresh).1 = false
  ∧ (load_llm_config locked_world fresh).1
    = Raise (Raised LLMConfigError
               ("Failed to load configuration: "
                  +:+ "[Errno 13] Permission denied: '/etc/secrets/.json'")).
Proof. by vm_compute. Qed.

(** C4, amended. For a configuration file that, when it decodes, decodes
    to a JSON object: loading the configuration fails if and only if
    the file is missing, holds invalid JSON, lacks [base_url] or
    [api_key], or exists and cannot be opened or read. When loading
    fails the process stops in the import of [llm/agent.py] with an
    [LLMConfigError]: [main] never runs, so the crawl engine and the
    agent are not called, no system call touches the file system, and
    the disk and the directories are as they were; one error line is
    logged. *)
Theorem config_failure_aborts_before_any_work (w : World) (st : State) :
  (∀ v, config_file w = CfgJSON v → ∃ items, v = JDict items) →
  (is_ok (load_llm_config w st).1 = false
   ↔ stated_failure (config_file w) = true
     ∨ ∃ e, config_file w = CfgUnreadable e)
  ∧ (is_ok (load_llm_config w st).1 = false →
     ∃ e st_end msg,
       process w st = (Raise e, st_end)
       ∧ exn_cls e = LLMConfigError
       ∧ files st_end = files st
       ∧ dirs st_end = dirs st
       ∧ buffers st_end = buffers st
       ∧ io_count st_end = io_count st
       ∧ agent_calls st_end = agent_calls st
       ∧ clock_reads st_end = clock_reads st
       ∧ trace st_end = trace st ++ [EvLog "ERROR" msg]).
Proof.
  intros Hobject.
  pose proof (load_llm_config_cases w st) as Hcases.
  destruct (load_llm_config w st) as [[v|e] st'] eqn:Hload; cbn [fst is_ok].
  - destruct Hcases as (Hcfg & Hbase & Hkey).
    destruct (Hobject v Hcfg) as [items ->].
    rewrite contains_object in Hbase, Hkey.
    injection Hbase as Hbase. injection Hkey as Hkey.
    split; [|done]. split; [done|].
    rewrite Hcfg. cbn [stated_failure has_field]. rewrite Hbase, Hkey.
    intros [?|[e ?]]; done.
  - destruct Hcases as (Hcls & -> & Hcause). split.
    + split; [intros _|done].
      destruct Hcause as [->|[[e' ->]|[[msg ->]|(v & Hcfg & Hnot)]]];
        [by left|right; by eexists|by left|].
      left. destruct (Hobject v Hcfg) as [items ->].
      rewrite Hcfg. cbn [stated_failure].
      rewrite !contains_object in Hnot.
      destruct (has_field "base_url" (JDict items)),
        (has_field "api_key" (JDict items)); try done.
      by destruct Hnot.
    + intros _. eexists _, _, _. split; [by apply process_without_config|].
      repeat split; done.
Qed.

Lemma config_failure_aborts_before_any_work_witness :
  (is_ok (load_llm_config keyless_world fresh).1 = false
   ↔ stated_failure (config_file keyless_world) = true
     ∨ ∃ e, config_file keyless_world = CfgUnreadable e)
  ∧ (is_ok (load_llm_config keyless_world fresh).1 = false →
     ∃ e st_end msg,
       process keyless_world fresh = (Raise e, st_end)
       ∧ exn_cls e = LLMConfigError
       ∧ files st_end = files fresh
       ∧ dirs st_end = dirs fresh
       ∧ buffers st_end = buffers fresh
       ∧ io_count st_end = io_count fresh
       ∧ agent_calls st_end = agent_calls fresh
       ∧ clock_reads st_end = clock_reads fresh
       ∧ trace st_end = trace fresh ++ [EvLog "ERROR" msg]).
Proof.
  apply (config_failure_aborts_before_any_work keyless_world fresh).
  intros v [= <-]. eexists. reflexivity.
Defined.

(** The scenario of the specification: without [api_key] the process
    logs the failure and stops; it has printed nothing, crawled
    nothing and touched no file. *)
Example process_without_api_key :
  process keyless_world fresh
  = (Raise (Raised LLMConfigError
              ("Failed to create agent: Failed to load configuration: "
                 +:+ "Missing required configuration fields: ['api_key']")),
     emit (EvLog "ERROR"
             ("Failed to initialize LLM agent: Failed to create agent: "
                +:+ "Failed to load configuration: "
                +:+ "Missing required configuration fields: ['api_key']"))
       fresh).
Proof. by vm_compute. Qed.

(** * Further properties of the code *)

(** ** File names *)

Lemma keep_char_sanitized (c : ascii) :
  keep_char c = true →
  filename_char (lower_char (if is_space c then "_"%char else c)) = true.
Proof.
  destruct c as [[] [] [] [] [] [] [] []]; vm_compute; intros H;
    first [reflexivity | discriminate H].
Qed.

Lemma filename_char_fixed (c : ascii) :
  filename_char c = true →
  keep_char c = true ∧ is_space c = false ∧ lower_char c = c.
Proof.
  destruct c as [[] [] [] [] [] [] [] []]; vm_compute; intros H;
    first [discriminate H | by repeat split].
Qed.

Lemma lstrip_suffix (l : list ascii) : ∃ spaces, l = spaces ++ lstrip l
  ∧ Forall (λ c, is_space c = true) spaces.
Proof.
  induction l as [|c l (spaces & Hl & Hs)]; [by exists []|].
  cbn [lstrip]. destruct (is_space c) eqn:Hc.
  - exists (c :: spaces). split; [by rewrite Hl at 1|]. by constructor.
  - by exists [].
Qed.

Lemma lstrip_nil (l : list ascii) :
  lstrip l = [] ↔ Forall (λ c, is_space c = true) l.
Proof.
  induction l as [|c l IH]; [done|]. cbn [lstrip].
  destruct (is_space c) eqn:Hc.
  - rewrite IH. split; [by constructor|by inversion 1].
  - split; [done|]. inversion 1; congruence.
Qed.

Lemma rstrip_prefix (l : list ascii) :
  ∃ spaces, l = rstrip l ++ spaces ∧ Forall (λ c, is_space c = true) spaces.
Proof.
  unfold rstrip. destruct (lstrip_suffix (rev l)) as (spaces & Hl & Hs).
  exists (rev spaces). split.
  - rewrite <- rev_app_distr, <- Hl. by rewrite rev_involutive.
  - by apply Forall_rev.
Qed.

Lemma rstrip_no_space (l : list ascii) :
  Forall (λ c, is_space c = false) l → rstrip l = l.
Proof.
  intros Hl. unfold rstrip.
  assert (lstrip (rev l) = rev l) as ->; [|apply rev_involutive].
  apply Forall_rev in Hl. destruct (rev l) as [|c r]; [done|].
  cbn [lstrip]. inversion Hl as [|?? Hc _]. by rewrite Hc.
Qed.

Lemma length_string_of_list (l : list ascii) :
  String.length (String.string_of_list_ascii l) = length l.
Proof. induction l as [|c l IH]; [done|]. cbn. by rewrite IH. Qed.

Lemma length_list_of_string (s : string) :
  length (String.list_ascii_of_string s) = String.length s.
Proof. induction s as [|c s IH]; [done|]. cbn. by rewrite IH. Qed.

Lemma sanitize_chars (s : string) :
  Forall (λ c, filename_char c = true)
    (String.list_ascii_of_string (sanitize s)).
Proof.
  unfold sanitize. rewrite String.list_ascii_of_string_of_list_ascii.
  apply Forall_fmap, Forall_forall. intros c Hc. cbn.
  apply keep_char_sanitized.
  destruct (rstrip_prefix (List.filter keep_char (String.list_ascii_of_string s)))
    as (spaces & Hl & _).
  assert (c ∈ List.filter keep_char (String.list_ascii_of_string s)) as Hin.
  { rewrite Hl. apply elem_of_app. by left. }
  apply list_elem_of_In, List.filter_In in Hin. by destruct Hin.
Qed.

Lemma sanitize_length (s : string) :
  String.length (sanitize s) ≤ String.length s.
Proof.
  unfold sanitize. rewrite length_string_of_list, length_map.
  destruct (rstrip_prefix (List.filter keep_char (String.list_ascii_of_string s)))
    as (spaces & Hl & _).
  pose proof (List.filter_length_le keep_char (String.list_ascii_of_string s)) as Hf.
  rewrite Hl, length_app in Hf. rewrite <- length_list_of_string. lia.
Qed.

Lemma sanitize_of_filename_chars (l : list ascii) :
  Forall (λ c, filename_char c = true) l →
  sanitize (String.string_of_list_ascii l) = String.string_of_list_ascii l.
Proof.
  intros Hl. unfold sanitize.
  rewrite String.list_ascii_of_string_of_list_ascii.
  assert (List.filter keep_char l = l) as ->.
  { induction Hl as [|c l Hc _ IH]; [done|]. cbn.
    destruct (filename_char_fixed c Hc) as (-> & _). by rewrite IH. }
  rewrite rstrip_no_space.
  2:{ eapply Forall_impl; [exact Hl|]. intros c Hc.
      by destruct (filename_char_fixed c Hc) as (_ & ? & _). }
  f_equal. induction Hl as [|c l Hc _ IH]; [done|]. cbn.
  destruct (filename_char_fixed c Hc) as (_ & -> & ->). by rewrite IH.
Qed.

Lemma sanitize_idempotent_all (s : string) : sanitize (sanitize s) = sanitize s.
Proof.
  rewrite <- (String.string_of_list_ascii_of_string (sanitize s)).
  apply sanitize_of_filename_chars, sanitize_chars.
Qed.

Lemma sanitize_empty_iff (s : string) :
  sanitize s = EmptyString
  ↔ Forall (λ c, keep_char c = true → is_space c = true)
      (String.list_ascii_of_string s).
Proof.
  unfold sanitize, rstrip.
  set (l := String.list_ascii_of_string s).
  assert (∀ k : list ascii, String.string_of_list_ascii k = EmptyString ↔ k = [])
    as Hnil by (intros [|??]; done).
  assert (∀ k : list ascii, rev k = [] ↔ k = []) as Hrev.
  { intros k. split; [|by intros ->].
    intros H. apply (f_equal (@rev _)) in H. by rewrite rev_involutive in H. }
  rewrite Hnil. split.
  - intros H. apply fmap_nil_inv in H. apply Hrev, lstrip_nil in H.
    apply Forall_rev in H. rewrite rev_involutive in H. revert H.
    rewrite !Forall_forall. intros H c Hc Hk. apply H.
    apply list_elem_of_In, List.filter_In. split; [by apply list_elem_of_In|done].
  - intros H.
    assert (lstrip (rev (List.filter keep_char l)) = []) as ->; [|done].
    apply lstrip_nil, Forall_rev. revert H. rewrite !Forall_forall.
    intros H c Hc. apply list_elem_of_In, List.filter_In in Hc as [Hc Hk].
    apply H; [by apply list_elem_of_In|done].
Qed.

Lemma read_nat_str_nat (n : nat) : read_nat (str_nat n) = Some n.
Proof.
  unfold read_nat, str_nat.
  assert (NilEmpty.uint_of_string (NilZero.string_of_uint (Nat.to_uint n))
          = Some (Nat.to_uint n) ∨ Nat.to_uint n = Decimal.Nil) as [->| H].
  { destruct (Nat.to_uint n) eqn:E; try (left; apply NilEmpty.usu). by right. }
  - cbn. by rewrite DecimalNat.Unsigned.of_to.
  - exfalso. pose proof (DecimalNat.Unsigned.of_to n) as Hn.
    rewrite H in Hn. cbn in Hn. subst n. discriminate H.
Qed.

Lemma read_nat_zero_prefix (k : nat) (s : string) (n : nat) :
  read_nat s = Some n → read_nat (str_repeat "0" k +:+ s) = Some n.
Proof.
  intros Hs. induction k as [|k IH]; [done|].
  cbn [str_repeat]. unfold read_nat in *.
  change (("0" +:+ str_repeat "0" k) +:+ s)
    with (String "0"%char (str_repeat "0" k +:+ s)).
  cbn [NilEmpty.uint_of_string].
  destruct (NilEmpty.uint_of_string (str_repeat "0" k +:+ s)) as [d|];
    [|discriminate IH].
  cbn in IH |- *. injection IH as <-. reflexivity.
Qed.

Lemma read_nat_zfill (width n : nat) : read_nat (zfill width (str_nat n)) = Some n.
Proof. apply read_nat_zero_prefix, read_nat_str_nat. Qed.

Lemma below_checked (P : nat → bool) (bound : nat) :
  forallb P (seq 0 bound) = true → ∀ n, n < bound → P n = true.
Proof.
  intros H n Hn. rewrite forallb_forall in H. apply H, in_seq. lia.
Qed.

Lemma length_zfill_2 (n : nat) :
  n < 100 → String.length (zfill 2 (str_nat n)) = 2.
Proof.
  intros Hn. apply Nat.eqb_eq.
  revert n Hn. apply (below_checked (λ n, String.length (zfill 2 (str_nat n)) =? 2)).
  by vm_compute.
Qed.

Lemma length_zfill_4 (n : nat) :
  n < 100 * 100 → String.length (zfill 4 (str_nat n)) = 4.
Proof.
  intros Hn. apply Nat.eqb_eq.
  revert n Hn. apply (below_checked (λ n, String.length (zfill 4 (str_nat n)) =? 4)).
  by vm_compute.
Qed.

Lemma str_app_inj_length (a a' b b' : string) :
  String.length a = String.length a' → a +:+ b = a' +:+ b' → a = a' ∧ b = b'.
Proof.
  revert a'. induction a as [|c a IH]; intros [|c' a'] Hlen Heq;
    try discriminate Hlen; [done|].
  rewrite !str_app_cons in Heq. injection Heq as -> Heq.
  injection Hlen as Hlen. destruct (IH a' Hlen Heq) as [-> ->]. done.
Qed.

Lemma zfill_inj (width n n' : nat) :
  zfill width (str_nat n) = zfill width (str_nat n') → n = n'.
Proof.
  intros H. apply (f_equal read_nat) in H.
  rewrite !read_nat_zfill in H. by injection H.
Qed.

Lemma strftime_compact_inj (t t' : datetime) :
  valid_datetime t → valid_datetime t' →
  strftime_compact t = strftime_compact t' → t = t'.
Proof.
  intros (Hy & Hm & Hd & Hh & Hmi & Hs) (Hy' & Hm' & Hd' & Hh' & Hmi' & Hs').
  unfold strftime_compact. intros H.
  apply str_app_inj_length in H as [Eyear H];
    [|rewrite !length_zfill_4; lia].
  apply str_app_inj_length in H as [Emonth H];
    [|rewrite !length_zfill_2; lia].
  apply str_app_inj_length in H as [Eday H];
    [|rewrite !length_zfill_2; lia].
  apply str_app_inj_length in H as [_ H]; [|done].
  apply str_app_inj_length in H as [Ehour H];
    [|rewrite !length_zfill_2; lia].
  apply str_app_inj_length in H as [Eminute Esecond];
    [|rewrite !length_zfill_2; lia].
  apply zfill_inj in Eyear, Emonth, Eday, Ehour, Eminute, Esecond.
  destruct t, t'; cbn in *. by subst.
Qed.

Lemma length_strftime_compact (t : datetime) :
  valid_datetime t → String.length (strftime_compact t) = 15.
Proof.
  intros (Hy & Hm & Hd & Hh & Hmi & Hs). unfold strftime_compact.
  assert (∀ a b, String.length (a +:+ b) = String.length a + String.length b)
    as Hlen.
  { induction a as [|c a IH]; intros b; [done|].
    rewrite str_app_cons. cbn. by rewrite IH. }
  rewrite !Hlen, length_zfill_4, !length_zfill_2 by lia. reflexivity.
Qed.

Lemma str_length_app (a b : string) :
  String.length (a +:+ b) = String.length a + String.length b.
Proof.
  induction a as [|c a IH]; [done|]. rewrite str_app_cons. cbn. by rewrite IH.
Qed.

Lemma str_app_eq_r (a b : string) : a +:+ b = b → a = EmptyString.
Proof.
  intros H. apply (f_equal String.length) in H. rewrite str_length_app in H.
  destruct a; [done|]. cbn in H. lia.
Qed.

Lemma is_ascii_checked (s : string) :
  forallb (λ c, nat_of_ascii c <? 128) (String.list_ascii_of_string s) = true →
  is_ascii s.
Proof.
  intros H. apply Forall_forall. intros c Hc.
  rewrite forallb_forall in H. apply Nat.ltb_lt, H. by apply list_elem_of_In.
Qed.

Lemma filename_chars_checked (s : string) :
  forallb filename_char (String.list_ascii_of_string s) = true →
  Forall (λ c, filename_char c = true) (String.list_ascii_of_string s).
Proof.
  intros H. apply Forall_forall. intros c Hc.
  rewrite forallb_forall in H. by apply H, list_elem_of_In.
Qed.

(** X1. For an ASCII base name, the file name [_generate_filename]
    returns is a stem, then [_] and the timestamp when one is asked
    for, then the extension. The stem is made of lowercase letters,
    digits, [-] and [_] only (no blank, no capital, no path separator)
    and is not longer than the base name; without a timestamp the clock
    is not read. *)
Theorem generated_filename_is_safe (w : World) (self : FileWriter)
    (base_name extension : string) (st : State) :
  is_ascii base_name →
  ∃ stem,
    _generate_filename w self base_name extension false st
    = (Ok (stem +:+ extension), st)
    ∧ _generate_filename w self base_name extension true st
      = (Ok (stem +:+ "_" +:+ strftime_compact (now w (clock_reads st))
               +:+ extension),
         tick_clock st)
    ∧ Forall (λ c, filename_char c = true) (String.list_ascii_of_string stem)
    ∧ ("/"%char ∉ String.list_ascii_of_string stem)
    ∧ String.length stem ≤ String.length base_name.
Proof.
  intros _. exists (sanitize base_name).
  split; [done|]. split; [done|]. split; [apply sanitize_chars|].
  split; [|apply sanitize_length].
  intros Hin. pose proof (sanitize_chars base_name) as Hall.
  rewrite Forall_forall in Hall. by apply Hall in Hin.
Qed.

Lemma generated_filename_is_safe_witness :
  ∃ stem,
    _generate_filename calm_world out_writer "My Notes: v2/draft " ".md"
      false fresh
    = (Ok (stem +:+ ".md"), fresh)
    ∧ _generate_filename calm_world out_writer "My Notes: v2/draft " ".md"
        true fresh
      = (Ok (stem +:+ "_"
               +:+ strftime_compact (now calm_world (clock_reads fresh))
               +:+ ".md"),
         tick_clock fresh)
    ∧ Forall (λ c, filename_char c = true) (String.list_ascii_of_string stem)
    ∧ ("/"%char ∉ String.list_ascii_of_string stem)
    ∧ String.length stem ≤ String.length "My Notes: v2/draft ".
Proof.
  apply (generated_filename_is_safe calm_world out_writer
           "My Notes: v2/draft " ".md" fresh).
  by apply is_ascii_checked.
Defined.

(** X2. A base name that is already made of lowercase letters, digits,
    [-] and [_] is kept as it is: the file name is the base name
    followed by the extension. So sanitizing twice is sanitizing
    once. *)
Theorem safe_base_name_is_kept (w : World) (self : FileWriter)
    (base_name extension : string) (st : State) :
  Forall (λ c, filename_char c = true)
    (String.list_ascii_of_string base_name) →
  _generate_filename w self base_name extension false st
  = (Ok (base_name +:+ extension), st).
Proof.
  intros H. unfold _generate_filename, ret.
  rewrite <- (String.string_of_list_ascii_of_string base_name) at 1.
  by rewrite sanitize_of_filename_chars, String.string_of_list_ascii_of_string.
Qed.

Lemma safe_base_name_is_kept_witness :
  _generate_filename calm_world out_writer "walmart_design_toolkit" ".md"
    false fresh
  = (Ok ("walmart_design_toolkit" +:+ ".md"), fresh).
Proof.
  apply (safe_base_name_is_kept calm_world out_writer
           "walmart_design_toolkit" ".md" fresh).
  by apply filename_chars_checked.
Defined.

(** X3. For an ASCII base name, the file name without a timestamp is
    the bare extension exactly when no character of the base name is a
    letter, a digit, [-] or [_]: every character the filter of
    [_generate_filename] keeps is a space, and the spaces are
    stripped. All such base names share one file. *)
Theorem blank_base_name_gives_bare_extension (w : World)
    (self : FileWriter) (base_name extension : string) (st : State) :
  is_ascii base_name →
  (Forall (λ c, keep_char c = true → is_space c = true)
     (String.list_ascii_of_string base_name)
   ↔ _generate_filename w self base_name extension false st
     = (Ok extension, st)).
Proof.
  intros _. rewrite <- sanitize_empty_iff. unfold _generate_filename, ret.
  split.
  - by intros ->.
  - intros [= H]. by apply str_app_eq_r in H.
Qed.

Lemma blank_base_name_gives_bare_extension_witness :
  Forall (λ c, keep_char c = true → is_space c = true)
    (String.list_ascii_of_string "?? !! ")
  ↔ _generate_filename calm_world out_writer "?? !! " ".md" false fresh
    = (Ok ".md", fresh).
Proof.
  apply (blank_base_name_gives_bare_extension calm_world out_writer
           "?? !! " ".md" fresh).
  by apply is_ascii_checked.
Defined.

(** X4. Two file names generated with a timestamp from the same base
    name and extension are equal exactly when the two clock readings
    show the same second: runs started in different seconds get
    different files, runs started within one second share one. The
    timestamp has 15 characters. *)
Theorem timestamped_names_differ_by_second (w : World) (self : FileWriter)
    (base_name extension : string) (st1 st2 : State) :
  valid_datetime (now w (clock_reads st1)) →
  valid_datetime (now w (clock_reads st2)) →
  ((_generate_filename w self base_name extension true st1).1
   = (_generate_filename w self base_name extension true st2).1
   ↔ now w (clock_reads st1) = now w (clock_reads st2))
  ∧ String.length (strftime_compact (now w (clock_reads st1))) = 15.
Proof.
  intros H1 H2. split; [|by apply length_strftime_compact].
  unfold _generate_filename, bind, datetime_now, ret. cbn [fst].
  split.
  - intros [= H]. apply (inj (String.app _)) in H.
    rewrite !str_app_cons, !str_app_nil_l in H. injection H as H.
    apply str_app_inj_length in H as [H _];
      [|by rewrite !length_strftime_compact].
    by apply strftime_compact_inj.
  - by intros ->.
Qed.

Lemma timestamped_names_differ_by_second_witness :
  ((_generate_filename ticking_world out_writer "notes" ".md" true fresh).1
   = (_generate_filename ticking_world out_writer "notes" ".md" true
        (tick_clock fresh)).1
   ↔ now ticking_world (clock_reads fresh)
     = now ticking_world (clock_reads (tick_clock fresh)))
  ∧ String.length
      (strftime_compact (now ticking_world (clock_reads fresh))) = 15.
Proof.
  apply (timestamped_names_differ_by_second ticking_world out_writer
           "notes" ".md" fresh (tick_clock fresh)).
  - unfold valid_datetime. cbn. lia.
  - unfold valid_datetime. cbn. lia.
Defined.

(** ** [write_markdown] and [write_crawl_results] *)

(** The base name [write_markdown] sanitizes. *)
Lemma write_markdown_unfold (w : World) (fw : FileWriter) (body : string)
    (filename title : option string) (ts : bool) (st : State) :
  let base :=
    match filename with
    | None => if truthy title then default EmptyString title else "crawl_output"
    | Some name => name
    end in
  write_markdown w fw body filename title ts st
  = try_except
      (with_open w (init_path w fw base ts st) ModeW
         (fun f => f_write w f (init_header w title ts st +:+ body)) ;;
       ret (init_path w fw base ts st))
      (fun e => raise (Raised Exception
         ("Failed to write markdown file: " +:+ str_exn e)))
      (init_clock title ts st).
Proof.
  destruct ts, filename as [name|], title as [[|c s]|]; reflexivity.
Qed.

Lemma io_count_init_clock (title : option string) (ts : bool) (st : State) :
  io_count (init_clock title ts st) = io_count st.
Proof. unfold init_clock. by destruct ts, (truthy title). Qed.

Lemma files_init_clock (title : option string) (ts : bool) (st : State) :
  files (init_clock title ts st) = files st.
Proof. unfold init_clock. by destruct ts, (truthy title). Qed.

Lemma write_markdown_ok (w : World) (fw : FileWriter) (body : string)
    (filename title : option string) (ts : bool) (st : State) :
  no_faults w →
  let base :=
    match filename with
    | None => if truthy title then default EmptyString title else "crawl_output"
    | Some name => name
    end in
  write_markdown w fw body filename title ts st
  = (Ok (init_path w fw base ts st),
     after_init (init_path w fw base ts st)
       (init_header w title ts st +:+ body) (init_clock title ts st)).
Proof.
  intros Hw base. rewrite write_markdown_unfold. fold base.
  unfold try_except, bind.
  rewrite with_open_write, !Hw. cbv zeta. unfold ret.
  by rewrite close_after_write_w.
Qed.

Lemma close_after_failed_write (path data : string) (st : State) :
  files (f_close path
           (tick_io (emit (EvWrite path data)
              (open_effect path ModeW (tick_io (emit (EvOpen path ModeW) st))))))
  = <[path := EmptyString]> (files st).
Proof.
  unfold f_close. unfold_state.
  rewrite !content_insert, !insert_insert_eq. by rewrite str_app_nil_l.
Qed.

(** X5. When no system call raises, [write_markdown] returns the path
    of a file that holds exactly the header of the title (empty for a
    falsy title) followed by the content, whatever the file held
    before; no other file changes. The name of the file comes from
    [filename] when one is given, from the title when there is none,
    and is [crawl_output] when there is neither. *)
Theorem write_markdown_replaces_the_file (w : World) (fw : FileWriter)
    (body : string) (filename title : option string) (timestamp : bool)
    (st : State) :
  no_faults w →
  let base_name :=
    match filename, title with
    | Some name, _ => name
    | None, Some (String c s) => String c s
    | None, _ => "crawl_output"
    end in
  let path := init_path w fw base_name timestamp st in
  ∃ st',
    write_markdown w fw body filename title timestamp st = (Ok path, st')
    ∧ files st' !! path
      = Some (init_header w title timestamp st +:+ body)
    ∧ (∀ other, other ≠ path → files st' !! other = files st !! other)
    ∧ buffers st' !! path = None.
Proof.
  intros Hw base_name path.
  rewrite write_markdown_ok by done.
  assert (match filename with
          | None => if truthy title then default EmptyString title
                    else "crawl_output"
          | Some name => name
          end = base_name) as ->.
  { subst base_name. by destruct filename as [name|], title as [[|c s]|]. }
  eexists. split; [done|]. unfold after_init. cbn [files buffers].
  fold path. rewrite lookup_insert_eq, lookup_delete_eq.
  repeat split; try done.
  intros other Hne. rewrite lookup_insert_ne by done.
  by rewrite files_init_clock.
Qed.

Lemma write_markdown_replaces_the_file_witness :
  let path := init_path calm_world out_writer "report" false used in
  ∃ st',
    write_markdown calm_world out_writer "new report" (Some "report") None
      false used = (Ok path, st')
    ∧ files st' !! path
      = Some (init_header calm_world None false used +:+ "new report")
    ∧ (∀ other, other ≠ path → files st' !! other = files used !! other)
    ∧ buffers st' !! path = None.
Proof.
  apply (write_markdown_replaces_the_file calm_world out_writer "new report"
           (Some "report") None false used).
  intros n. reflexivity.
Defined.



(** X7. [initialize_streaming_markdown] is [write_markdown] with an
    empty content and the base name as file name: the two calls leave
    the same state in every world, and return the same path when they
    return. They differ in the message of the exception they raise. *)
Theorem initialize_is_write_markdown_of_nothing (w : World)
    (fw : FileWriter) (base_filename : string) (title : option string)
    (timestamp : bool) (st : State) :
  (initialize_streaming_markdown w fw base_filename title timestamp st).2
  = (write_markdown w fw EmptyString (Some base_filename) title timestamp
       st).2
  ∧ (∀ path,
       (initialize_streaming_markdown w fw base_filename title timestamp
          st).1 = Ok path
       ↔ (write_markdown w fw EmptyString (Some base_filename) title
            timestamp st).1 = Ok path)
  ∧ (∀ e,
       (initialize_streaming_markdown w fw base_filename title timestamp
          st).1 = Raise e
       → ∃ cause,
           e = Raised Exception
                 ("Failed to initialize streaming markdown file: " +:+ cause)
           ∧ (write_markdown w fw EmptyString (Some base_filename) title
                timestamp st).1
             = Raise (Raised Exception
                        ("Failed to write markdown file: " +:+ cause))).
Proof.
  rewrite initialize_unfold, write_markdown_unfold, str_app_nil_r.
  unfold try_except, bind. rewrite with_open_write, io_count_init_clock.
  destruct (io_fault w (io_count st)) as [e1|].
  - split; [done|]. split; [done|]. intros e [= <-]. by eexists.
  - cbv zeta. destruct (io_fault w (S (io_count st))) as [e2|].
    + split; [done|]. split; [done|]. intros e [= <-]. by eexists.
    + split; [done|]. split; [done|]. intros e H. discriminate H.
Qed.

Lemma write_markdown_open_fault (w : World) (fw : FileWriter) (body : string)
    (filename title : option string) (ts : bool) (st : State) (e : exn) :
  io_fault w (io_count st) = Some e →
  ∃ st',
    write_markdown w fw body filename title ts st
    = (Raise (Raised Exception
                ("Failed to write markdown file: " +:+ str_exn e)), st')
    ∧ files st' = files st ∧ dirs st' = dirs st.
Proof.
  intros Hopen. rewrite write_markdown_unfold.
  unfold try_except, bind.
  rewrite with_open_write, io_count_init_clock, Hopen.
  eexists. split; [done|]. unfold_state.
  unfold init_clock. by destruct ts, (truthy title).
Qed.

(** X8. When the file cannot be opened, [write_crawl_results] leaves
    the disk as it was and raises an exception whose message wraps the
    cause twice: [Failed to write crawl results: Failed to write
    markdown file: <cause>]. *)
Theorem write_crawl_results_wraps_twice (w : World) (fw : FileWriter)
    (results : list crawl4ai.CrawlResult) (base_filename : string)
    (timestamp : bool) (st : State) (e : exn) :
  io_fault w (io_count st) = Some e →
  ∃ st',
    write_crawl_results w fw results base_filename timestamp st
    = (Raise (Raised Exception
                ("Failed to write crawl results: "
                   +:+ "Failed to write markdown file: " +:+ str_exn e)),
       st')
    ∧ files st' = files st
    ∧ dirs st' = dirs st.
Proof.
  intros Hopen. unfold write_crawl_results.
  destruct (write_markdown_open_fault w fw
              (String.concat nl (content_parts results)) (Some base_filename)
              (Some (results_title results)) timestamp st e Hopen)
    as (st' & Hrun & Hfiles & Hdirs).
  exists st'. split; [|done].
  by erewrite try_except_raise by exact Hrun.
Qed.

Lemma write_crawl_results_wraps_twice_witness :
  ∃ st',
    write_crawl_results (faulty_world 0) out_writer two_pages "report" false
      used
    = (Raise (Raised Exception
                ("Failed to write crawl results: "
                   +:+ "Failed to write markdown file: "
                   +:+ str_exn disk_full)),
       st')
    ∧ files st' = files used
    ∧ dirs st' = dirs used.
Proof.
  apply (write_crawl_results_wraps_twice (faulty_world 0) out_writer
           two_pages "report" false used disk_full).
  reflexivity.
Defined.

Lemma concat_cons (sep x y : string) (l : list string) :
  String.concat sep (x :: y :: l) = x +:+ sep +:+ String.concat sep (y :: l).
Proof. reflexivity. Qed.

Lemma concat_app_nonempty (sep : string) (l2 l3 : list string) :
  l2 ≠ [] →
  ∃ after, String.concat sep (l2 ++ l3) = String.concat sep l2 +:+ after.
Proof.
  induction l2 as [|x l2 IH]; [done|]. intros _.
  destruct l2 as [|y l2].
  - destruct l3 as [|z l3].
    + exists EmptyString. by rewrite str_app_nil_r.
    + exists (sep +:+ String.concat sep (z :: l3)). reflexivity.
  - destruct IH as [after Hafter]; [done|]. exists after.
    cbn [app] in *. rewrite !concat_cons, Hafter.
    by rewrite !str_app_assoc.
Qed.

Lemma concat_contains (sep : string) (l1 l2 l3 : list string) :
  l2 ≠ [] →
  ∃ before after,
    String.concat sep (l1 ++ l2 ++ l3)
    = before +:+ String.concat sep l2 +:+ after.
Proof.
  intros Hne. induction l1 as [|x l1 (before & after & IH)].
  - destruct (concat_app_nonempty sep l2 l3 Hne) as [after Hafter].
    exists EmptyString, after. by rewrite str_app_nil_l.
  - destruct (l1 ++ l2 ++ l3) as [|y rest] eqn:Hrest.
    { destruct l1, l2; done. }
    exists (x +:+ sep +:+ before), after. cbn [app]. rewrite Hrest.
    rewrite concat_cons, IH. by rewrite !str_app_assoc.
Qed.

Lemma results_parts_lookup (results : list crawl4ai.CrawlResult) (i j : nat)
    (result : crawl4ai.CrawlResult) :
  results !! j = Some result →
  ∃ l1 l3, results_parts i results = l1 ++ result_parts (i + j) result ++ l3.
Proof.
  revert i j. induction results as [|r rest IH]; intros i j Hj; [done|].
  destruct j as [|j].
  - injection Hj as ->. exists [], (results_parts (S i) rest).
    by rewrite Nat.add_0_r.
  - destruct (IH (S i) j Hj) as (l1 & l3 & Hparts).
    exists (result_parts i r ++ l1), l3. cbn [results_parts].
    replace (i + S j) with (S i + j) by lia.
    by rewrite Hparts, <- app_assoc.
Qed.

(** X9. When no system call raises, [write_crawl_results] writes one
    file that holds the header titled with the number of pages and then
    the report; for every page of the crawl the report contains the
    eight lines of that page (its heading [### Page i: <url>] numbered
    from 1, depth, status, and its markdown in a fence), joined by
    newlines; for an empty crawl the report is the two summary lines
    alone. *)
Theorem write_crawl_results_lists_every_page (w : World) (fw : FileWriter)
    (results : list crawl4ai.CrawlResult) (base_filename : string)
    (timestamp : bool) (st : State) :
  no_faults w →
  ∃ st' report,
    write_crawl_results w fw results base_filename timestamp st
    = (Ok (init_path w fw base_filename timestamp st), st')
    ∧ files st' !! init_path w fw base_filename timestamp st
      = Some (header_for (results_title results)
                (now w (header_reading timestamp st)) +:+ report)
    ∧ (∀ j result,
         results !! j = Some result →
         ∃ before after,
           report
           = before +:+ String.concat nl (result_parts (S j) result)
               +:+ after)
    ∧ (results = [] →
       report = "**Total Pages Crawled:** 0" +:+ nl +:+ nl
                  +:+ "## Crawl Results" +:+ nl).
Proof.
  intros Hw. unfold write_crawl_results.
  exists (after_init (init_path w fw base_filename timestamp st)
            (init_header w (Some (results_title results)) timestamp st
               +:+ String.concat nl (content_parts results))
            (init_clock (Some (results_title results)) timestamp st)),
    (String.concat nl (content_parts results)).
  split; [|split; [|split]].
  - apply try_except_ok.
    by rewrite (write_markdown_ok w fw _ (Some base_filename)).
  - unfold after_init. cbn [files]. rewrite lookup_insert_eq.
    do 2 f_equal.
  - intros j result Hj. unfold content_parts.
    destruct (results_parts_lookup results 1 j result Hj)
      as (l1 & l3 & ->).
    rewrite app_assoc. by apply concat_contains.
  - intros ->. cbn. by rewrite !str_app_assoc.
Qed.

Lemma write_crawl_results_lists_every_page_witness :
  ∃ st' report,
    write_crawl_results calm_world out_writer two_pages "report" false used
    = (Ok (init_path calm_world out_writer "report" false used), st')
    ∧ files st' !! init_path calm_world out_writer "report" false used
      = Some (header_for (results_title two_pages)
                (now calm_world (header_reading false used)) +:+ report)
    ∧ (∀ j result,
         two_pages !! j = Some result →
         ∃ before after,
           report
           = before +:+ String.concat nl (result_parts (S j) result)
               +:+ after)
    ∧ (two_pages = [] →
       report = "**Total Pages Crawled:** 0" +:+ nl +:+ nl
                  +:+ "## Crawl Results" +:+ nl).
Proof.
  apply (write_crawl_results_lists_every_page calm_world out_writer
           two_pages "report" false used).
  intros n. reflexivity.
Defined.

(** ** [crawl_and_display] and the HTTP client *)

(** X10. When the engine raises an exception that derives from
    [Exception], [crawl_and_display] does not pass it on: [crawl] wraps
    it, and [crawl_and_display] catches what [crawl] raises, prints the
    one line
    [Error during crawling: Failed to crawl <url>: <cause>] and returns
    normally. No line is printed for a page, neither the agent nor the
    file system is called, and the disk is as it was. *)
Theorem failed_crawl_is_displayed (w : World) (self : WebCrawler)
    (target : string) (st : State) (e : exn) :
  arun w target (_config self) = Raise e →
  ∃ st',
    crawl_and_display w self target st = (Ok tt, st')
    ∧ printed (trace st')
      = printed (trace st)
          ++ ["Error during crawling: Failed to crawl " +:+ target
                +:+ ": " +:+ str_exn e]
    ∧ files st' = files st ∧ dirs st' = dirs st
    ∧ io_count st' = io_count st ∧ agent_calls st' = agent_calls st.
Proof.
  intros Hrun. unfold crawl_and_display. eexists. split.
  - erewrite try_except_raise; [done|].
    erewrite bind_raise; [done|]. by apply crawl_raise.
  - unfold print. unfold_state. repeat split; try done.
    rewrite !printed_app. cbn [printed]. by rewrite app_nil_r.
Qed.

Lemma failed_crawl_is_displayed_witness :
  ∃ st',
    crawl_and_display unreachable_world (WebCrawler_init 2 true true)
      target_url fresh = (Ok tt, st')
    ∧ printed (trace st')
      = printed (trace fresh)
          ++ ["Error during crawling: Failed to crawl " +:+ target_url
                +:+ ": "
                +:+ str_exn (Raised OSError "net::ERR_NAME_NOT_RESOLVED")]
    ∧ files st' = files fresh ∧ dirs st' = dirs fresh
    ∧ io_count st' = io_count fresh ∧ agent_calls st' = agent_calls fresh.
Proof.
  apply (failed_crawl_is_displayed unreachable_world
           (WebCrawler_init 2 true true) target_url fresh
           (Raised OSError "net::ERR_NAME_NOT_RESOLVED")).
  reflexivity.
Defined.

(** What [create_http_client] does, by the value of [ca_certs_path]:
    with a string it calls the constructor, with or without [verify];
    with another truthy value it raises before it gets there; without
    one it calls the constructor without [verify]. *)
Lemma create_http_client_cases
    (AsyncClient : client_kwargs → gmap string string → result unit)
    (config : list (string * json)) (st : State) :
  match truthy_item "ca_certs_path" config with
  | Some (JStr ca_path) =>
      ∃ st' level msg,
        create_http_client AsyncClient config st
        = (constructed AsyncClient
             {| kw_headers := truthy_item "headers" config;
                kw_verify := if path_exists st ca_path
                             then Some ca_path else None |} (files st), st')
        ∧ files st' = files st ∧ dirs st' = dirs st
        ∧ io_count st' = io_count st
        ∧ last (trace st') = Some (EvLog level msg)
        ∧ level = (if path_exists st ca_path then "INFO" else "WARNING")
  | Some _ =>
      ∃ e st', create_http_client AsyncClient config st = (Raise e, st')
               ∧ exn_cls e = TypeError
               ∧ files st' = files st ∧ dirs st' = dirs st
               ∧ io_count st' = io_count st
  | None =>
      ∃ st', create_http_client AsyncClient config st
             = (constructed AsyncClient
                  {| kw_headers := truthy_item "headers" config;
                     kw_verify := None |} (files st), st')
             ∧ files st' = files st ∧ dirs st' = dirs st
             ∧ io_count st' = io_count st
  end.
Proof.
  unfold create_http_client, constructed, bind, ret, logger, raise.
  destruct (truthy_item "ca_certs_path" config) as [[| | | |p| |]|];
    destruct (truthy_item "headers" config) as [h|].
  all: try solve [eexists _, _; split; [reflexivity|done]].
  all: try solve
         [unfold_state; destruct (AsyncClient _ (files st));
          (eexists; split; [reflexivity|done])].
  all: change (path_exists (emit _ st) p) with (path_exists st p);
    destruct (path_exists st p) eqn:Hp; unfold_state;
    destruct (AsyncClient _ (files st));
    (eexists _, _, _; split; [reflexivity|]; unfold_state;
     repeat split; try done; by rewrite last_snoc).
Qed.




(** ** The agent *)

Lemma load_llm_config_state (w : World) (st st' : State) (v : json) :
  load_llm_config w st = (Ok v, st') →
  st' = emit (EvLog "INFO" "LLM configuration loaded successfully") st.
Proof.
  unfold load_llm_config, try_except, bind, read_config, raise, ret, logger.
  destruct (config_file w) as [|e'|msg|cfg]; try discriminate.
  - destruct (exn_cls e'); discriminate.
  - cbn [missing_among].
    destruct (contains "base_url" cfg) as [[]|e1];
      destruct (contains "api_key" cfg) as [[]|e2];
      try (destruct (exn_cls e1)); try (destruct (exn_cls e2));
      try discriminate.
    by intros [= _ <-].
Qed.

Lemma load_llm_config_raise_state (w : World) (st st' : State) (e : exn) :
  load_llm_config w st = (Raise e, st') → st' = st.
Proof.
  intros H. pose proof (load_llm_config_cases w st) as Hc.
  rewrite H in Hc. by destruct Hc as (_ & -> & _).
Qed.

(** What [create_agent] answers, by what loading and building answer. *)
Lemma create_agent_cases (w : World) (st : State) :
  create_agent w st
  = match load_llm_config w st with
    | (Raise e, _) =>
        (Raise (Raised LLMConfigError
                  ("Failed to create agent: " +:+ str_exn e)), st)
    | (Ok config, st1) =>
        match build_agent w config with
        | Ok _ =>
            (Ok {| model_name := "claude-sonnet-4"; retries := 3 |},
             emit (EvLog "INFO" "LLM agent created successfully") st1)
        | Raise e =>
            (Raise (Raised LLMConfigError
                      ("Failed to create agent: " +:+ str_exn e)), st1)
        end
    end.
Proof.
  unfold create_agent, try_except, bind, raise, ret, logger.
  destruct (load_llm_config w st) as [[config|e] st1] eqn:Hload.
  - by destruct (build_agent w config).
  - by rewrite (load_llm_config_raise_state _ _ _ _ Hload).
Qed.

Lemma create_agent_raises_config_error (w : World) (st : State) (e : exn) :
  (create_agent w st).1 = Raise e → exn_cls e = LLMConfigError.
Proof.
  rewrite create_agent_cases.
  destruct (load_llm_config w st) as [[config|e0] st1]; cbn [fst].
  - destruct (build_agent w config); [discriminate|]. by intros [= <-].
  - by intros [= <-].
Qed.

(** X14. When the agent cannot be created, for whatever reason, the
    process stops in the import of [llm/agent.py] with the
    [LLMConfigError] of [create_agent]: [main] never runs. Nothing is
    printed, the crawl engine and the agent are not called, the disk
    and the directories are as they were; the trace gains log lines
    only, the last of which is the error. *)
Theorem failed_agent_stops_the_process (w : World) (st : State) (e : exn) :
  (create_agent w st).1 = Raise e →
  ∃ st',
    process w st = (Raise e, st')
    ∧ exn_cls e = LLMConfigError
    ∧ printed (trace st') = printed (trace st)
    ∧ files st' = files st ∧ dirs st' = dirs st
    ∧ io_count st' = io_count st ∧ agent_calls st' = agent_calls st
    ∧ (∃ logs,
         trace st'
         = trace st ++ logs
             ++ [EvLog "ERROR"
                   ("Failed to initialize LLM agent: " +:+ str_exn e)]
         ∧ Forall (λ ev, ∃ level msg, ev = EvLog level msg) logs).
Proof.
  intros Hfail. unfold process, import_llm_agent.
  assert (exn_cls e = LLMConfigError) as Hcls
    by apply (create_agent_raises_config_error w st e Hfail).
  destruct (create_agent w st) as [r st1] eqn:Hrun. cbn [fst] in Hfail.
  subst r.
  erewrite bind_raise.
  2:{ erewrite try_except_raise by exact Hrun. rewrite Hcls. reflexivity. }
  eexists. split; [done|]. split; [done|].
  rewrite create_agent_cases in Hrun.
  destruct (load_llm_config w st) as [[config|e0] st0] eqn:Hload.
  - apply load_llm_config_state in Hload as ->.
    destruct (build_agent w config); [discriminate|].
    injection Hrun as _ <-. unfold_state.
    rewrite !printed_app. cbn [printed]. rewrite !app_nil_r.
    repeat split; try done.
    exists [EvLog "INFO" "LLM configuration loaded successfully"].
    split; [by rewrite <- app_assoc|]. repeat constructor. by eexists _, _.
  - injection Hrun as _ <-. unfold_state.
    rewrite !printed_app. cbn [printed]. rewrite !app_nil_r.
    repeat split; try done. exists []. split; [done|constructor].
Qed.

Lemma failed_agent_stops_the_process_witness :
  ∃ st',
    process no_provider_world fresh
    = (Raise (Raised LLMConfigError
                ("Failed to create agent: " +:+ "could not load CA bundle")),
       st')
    ∧ exn_cls (Raised LLMConfigError
                 ("Failed to create agent: " +:+ "could not load CA bundle"))
      = LLMConfigError
    ∧ printed (trace st') = printed (trace fresh)
    ∧ files st' = files fresh ∧ dirs st' = dirs fresh
    ∧ io_count st' = io_count fresh ∧ agent_calls st' = agent_calls fresh
    ∧ (∃ logs,
         trace st'
         = trace fresh ++ logs
             ++ [EvLog "ERROR"
                   ("Failed to initialize LLM agent: "
                      +:+ str_exn
                            (Raised LLMConfigError
                               ("Failed to create agent: "
                                  +:+ "could not load CA bundle")))]
         ∧ Forall (λ ev, ∃ level msg, ev = EvLog level msg) logs).
Proof.
  apply (failed_agent_stops_the_process no_provider_world fresh
           (Raised LLMConfigError
              ("Failed to create agent: " +:+ "could not load CA bundle"))).
  reflexivity.
Defined.

(** X15. When the configuration file holds a JSON object that lacks a
    required field, loading raises an [LLMConfigError] whose message
    names exactly the fields that are missing, in the order
    [base_url], [api_key], after the prefix the catch-all of
    [load_llm_config] adds; the state is as it was (nothing is
    logged). *)
Theorem missing_fields_are_named (w : World) (st : State)
    (items : list (string * json)) :
  config_file w = CfgJSON (JDict items) →
  let missing :=
    List.filter (λ field, negb (has_field field (JDict items)))
      ["base_url"; "api_key"] in
  missing ≠ [] →
  load_llm_config w st
  = (Raise (Raised LLMConfigError
              ("Failed to load configuration: "
                 +:+ "Missing required configuration fields: "
                 +:+ repr_str_list missing)), st).
Proof.
  intros Hcfg missing Hne. subst missing.
  unfold load_llm_config, try_except, bind, read_config, raise, ret, logger.
  rewrite Hcfg. cbn [missing_among contains List.filter has_field] in *.
  destruct (existsb (λ kv : string * json, String.eqb kv.1 "base_url") items),
    (existsb (λ kv : string * json, String.eqb kv.1 "api_key") items);
    cbn [negb] in *; try done.
Qed.

Lemma missing_fields_are_named_witness :
  load_llm_config keyless_world fresh
  = (Raise (Raised LLMConfigError
              ("Failed to load configuration: "
                 +:+ "Missing required configuration fields: "
                 +:+ repr_str_list
                       (List.filter
                          (λ field,
                             negb (has_field field
                                     (JDict [("base_url",
                                              JStr "https://llm.example.com")])))
                          ["base_url"; "api_key"]))),
     fresh).
Proof.
  apply (missing_fields_are_named keyless_world fresh
           [("base_url", JStr "https://llm.example.com")]).
  - reflexivity.
  - discriminate.
Defined.

(** X16. The validation of [load_llm_config] is a membership test, and
    a JSON list passes it as an object does: when the file holds a
    list, loading succeeds exactly when the strings [base_url] and
    [api_key] are both elements of the list, and it then returns the
    list itself and logs that the configuration is loaded. *)
Theorem list_of_names_passes_validation (w : World) (st : State)
    (items : list json) :
  config_file w = CfgJSON (JList items) →
  (JStr "base_url" ∈ items ∧ JStr "api_key" ∈ items
   ↔ load_llm_config w st
     = (Ok (JList items),
        emit (EvLog "INFO" "LLM configuration loaded successfully") st)).
Proof.
  intros Hcfg.
  assert (∀ name, existsb (λ x, match x with
                                | JStr s => String.eqb s name
                                | _ => false
                                end) items = true ↔ JStr name ∈ items)
    as Hmem.
  { intros name. rewrite existsb_exists. split.
    - intros (x & Hx & Heq). destruct x; try discriminate.
      apply String.eqb_eq in Heq as ->. by apply list_elem_of_In.
    - intros Hin. exists (JStr name). split; [by apply list_elem_of_In|].
      apply String.eqb_refl. }
  pose proof (load_llm_config_cases w st) as Hcases.
  destruct (load_llm_config w st) as [[v|e] st'] eqn:Hload.
  - destruct Hcases as (Hv & Hbase & Hkey).
    rewrite Hcfg in Hv. injection Hv as <-.
    apply load_llm_config_state in Hload as ->.
    cbn [contains] in Hbase, Hkey.
    injection Hbase as Hbase. injection Hkey as Hkey.
    split; [done|]. intros _. split; by apply Hmem.
  - split; [|discriminate]. intros [Hbase Hkey].
    destruct Hcases as (_ & _ & Hcause).
    rewrite Hcfg in Hcause.
    destruct Hcause as [?|[[? ?]|[[? ?]|(v & [= <-] & Hnot)]]]; try done.
    exfalso. apply Hnot. cbn [contains].
    split; f_equal; by apply Hmem.
Qed.

Lemma list_of_names_passes_validation_witness :
  JStr "base_url" ∈ [JStr "base_url"; JStr "api_key"]
  ∧ JStr "api_key" ∈ [JStr "base_url"; JStr "api_key"]
  ↔ load_llm_config list_config_world fresh
    = (Ok (JList [JStr "base_url"; JStr "api_key"]),
       emit (EvLog "INFO" "LLM configuration loaded successfully") fresh).
Proof.
  apply (list_of_names_passes_validation list_config_world fresh
           [JStr "base_url"; JStr "api_key"]).
  reflexivity.
Defined.

(** ** Failures of [main] *)

Lemma crawled_state_fields (pages : list crawl4ai.CrawlResult) (st : State) :
  let st1 :=
    emit (EvPrint (crawled_line pages))
      (emit (EvCrawl target_url) (emit_lines banner st)) in
  files st1 = files st ∧ dirs st1 = dirs st ∧ buffers st1 = buffers st
  ∧ io_count st1 = io_count st ∧ agent_calls st1 = agent_calls st
  ∧ clock_reads st1 = clock_reads st
  ∧ printed (trace st1) = printed (trace st) ++ banner ++ [crawled_line pages].
Proof.
  destruct (emit_lines_fields banner st) as (Hf & Hd & Hb & Ht & Hi & Ha & Hc).
  cbv zeta. unfold_state. rewrite Hf, Hd, Hb, Hi, Ha, Hc.
  repeat split; try done.
  rewrite !printed_app. cbn [printed]. rewrite app_nil_r.
  change (trace (fold_left (λ s line, emit (EvPrint line) s) banner st))
    with (trace (emit_lines banner st)).
  by rewrite printed_emit_lines, <- app_assoc.
Qed.

Lemma FileWriter_init_fault (w : World) (dir : string) (st : State) (e : exn) :
  io_fault w (io_count st) = Some e →
  FileWriter_init w dir st
  = (Raise (Raised Exception
              ("Failed to create output directory " +:+ dir +:+ ": "
                 +:+ str_exn e)),
     tick_io (emit (EvMkdir dir) st)).
Proof.
  intros H. unfold FileWriter_init, _ensure_output_directory, mkdir_parents.
  erewrite bind_raise; [done|].
  erewrite try_except_raise by (by apply sys_call_raise). reflexivity.
Qed.

Lemma FileWriter_init_at (w : World) (dir : string) (st : State) :
  io_fault w (io_count st) = None →
  FileWriter_init w dir st
  = (Ok {| output_dir := dir |},
     mkdir_effect dir (tick_io (emit (EvMkdir dir) st))).
Proof.
  intros H. unfold FileWriter_init, _ensure_output_directory, mkdir_parents.
  erewrite bind_ok; [done|].
  by apply try_except_ok, sys_call_ok.
Qed.

(** X18. When the output directory cannot be created, [main] ends in
    [Done failed] right after the crawl: no file is opened, the agent
    is never called, the disk and the directories are as they were,
    and the last line printed is
    [Error during crawl: Failed to create output directory out: <cause>]. *)
Theorem uncreatable_directory_fails_the_run (w : World) (agent : Agent)
    (st : State) (pages : list crawl4ai.CrawlResult) (e : exn) :
  arun w target_url main_config = Ok pages →
  io_fault w (io_count st) = Some e →
  ∃ st',
    main w agent st = (Ok (Done failed), st')
    ∧ files st' = files st ∧ dirs st' = dirs st
    ∧ io_count st' = S (io_count st)
    ∧ agent_calls st' = agent_calls st
    ∧ clock_reads st' = clock_reads st
    ∧ printed (trace st')
      = printed (trace st) ++ banner
          ++ [crawled_line pages;
              "❌ Error during crawl: Failed to create output directory out: "
                +:+ str_exn e].
Proof.
  intros Hcrawl Hfault.
  destruct (crawled_state_fields pages st)
    as (Hf & Hd & Hb & Hi & Ha & Hc & Hp).
  unfold main. rewrite bind_print.
  erewrite bind_ok by apply print_all_ok.
  rewrite !bind_print.
  erewrite try_except_raise.
  2:{ rewrite bind_print.
      erewrite bind_ok by (apply crawl_ok, Hcrawl).
      rewrite bind_print, banner_state.
      erewrite bind_raise; [done|].
      apply FileWriter_init_fault. by rewrite Hi. }
  rewrite bind_print. eexists. split; [done|].
  unfold_state. cbv zeta in Hf, Hd, Hb, Hi, Ha, Hc, Hp. revert Hf Hd Hi Ha Hc Hp.
  unfold_state. intros -> -> -> -> -> Hp.
  repeat split; try done.
  rewrite !printed_app in *. cbn [printed] in *.
  rewrite !app_nil_r in *. rewrite Hp.
  rewrite <- !app_assoc. do 2 f_equal.
Qed.

Lemma uncreatable_directory_fails_the_run_witness :
  ∃ st',
    main (faulty_world 0) the_agent fresh = (Ok (Done failed), st')
    ∧ files st' = files fresh ∧ dirs st' = dirs fresh
    ∧ io_count st' = S (io_count fresh)
    ∧ agent_calls st' = agent_calls fresh
    ∧ clock_reads st' = clock_reads fresh
    ∧ printed (trace st')
      = printed (trace fresh) ++ banner
          ++ [crawled_line two_pages;
              "❌ Error during crawl: Failed to create output directory out: "
                +:+ str_exn disk_full].
Proof.
  apply (uncreatable_directory_fails_the_run (faulty_world 0) the_agent fresh
           two_pages disk_full).
  - reflexivity.
  - reflexivity.
Defined.

Lemma initialize_at (w : World) (fw : FileWriter) (base : string)
    (title : option string) (ts : bool) (st : State) :
  io_fault w (io_count st) = None →
  io_fault w (S (io_count st)) = None →
  initialize_streaming_markdown w fw base title ts st
  = (Ok (init_path w fw base ts st),
     after_init (init_path w fw base ts st) (init_header w title ts st)
       (init_clock title ts st)).
Proof.
  intros H0 H1. rewrite initialize_unfold. unfold try_except, bind.
  rewrite with_open_write, io_count_init_clock, H0, H1. cbv zeta. unfold ret.
  by rewrite close_after_write_w.
Qed.

Lemma append_open_fault (w : World) (fw : FileWriter) (path body : string)
    (title : option string) (st : State) (e : exn) :
  io_fault w (io_count st) = Some e →
  append_to_markdown w fw path body title st
  = (Raise (Raised Exception
              ("Failed to append to markdown file: " +:+ str_exn e)),
     tick_io (emit (EvOpen path ModeA) st)).
Proof.
  intros H. unfold append_to_markdown, with_open, open_file.
  erewrite try_except_raise; [reflexivity|].
  erewrite bind_raise; [done|].
  by erewrite bind_raise by by apply sys_call_raise.
Qed.

(** A page whose extraction returns and whose section cannot be opened
    for appending: the loop raises, and the later pages are not
    touched. *)
Lemma process_results_append_fault (w : World) (agent : Agent)
    (fw : FileWriter) (path : string) (i : nat) (page : crawl4ai.CrawlResult)
    (rest : list crawl4ai.CrawlResult) (st : State) (output : string)
    (e : exn) :
  agent_run w (agent_calls st) (extraction_prompt page) = Ok output →
  io_fault w (io_count st) = Some e →
  ∃ st',
    process_results w agent fw path i (page :: rest) st
    = (Raise (Raised Exception
                ("Failed to append to markdown file: " +:+ str_exn e)), st')
    ∧ files st' = files st
    ∧ agent_calls st' = S (agent_calls st)
    ∧ io_count st' = S (io_count st)
    ∧ printed (trace st')
      = printed (trace st) ++ [extracting_line page; extracted_line page].
Proof.
  intros Hrun Hfault. cbn [process_results]. rewrite bind_print.
  unfold bind at 1, try_except, bind at 1, agent_run_output.
  unfold_state. rewrite Hrun. rewrite bind_print. unfold ret.
  eexists. split.
  - erewrite bind_raise; [done|]. by apply append_open_fault.
  - unfold_state. repeat split; try done.
    rewrite !printed_app. cbn [printed]. rewrite !app_nil_r.
    by rewrite <- !app_assoc.
Qed.

(** When the crawl returns and the directory and the artifact are
    created, [main] enters its loop in the state [before_loop]; an
    exception of the loop is printed, and the run has failed. *)
Lemma main_loop_raise (w : World) (agent : Agent)
    (pages : list crawl4ai.CrawlResult) (st st1 : State) (e : exn) :
  arun w target_url main_config = Ok pages →
  io_fault w (io_count st) = None →
  io_fault w (1 + io_count st) = None →
  io_fault w (2 + io_count st) = None →
  process_results w agent {| output_dir := "out" |} (artifact_path w st) 1
    pages (before_loop w pages st) = (Raise e, st1) →
  main w agent st
  = (Ok (Done failed),
     emit (EvPrint ("❌ Error during crawl: " +:+ str_exn e)) st1).
Proof.
  intros Hcrawl H0 H1 H2 Hloop.
  destruct (crawled_state_fields pages st) as (_ & _ & _ & Hi & _).
  cbv zeta in Hi.
  destruct (emit_lines_fields banner st) as (_ & _ & _ & _ & Hi' & _).
  unfold main. rewrite bind_print.
  erewrite bind_ok by apply print_all_ok.
  rewrite !bind_print.
  erewrite try_except_raise.
  2:{ rewrite bind_print.
      erewrite bind_ok by (apply crawl_ok, Hcrawl).
      rewrite bind_print, banner_state.
      erewrite bind_ok by (apply FileWriter_init_at; by rewrite Hi).
      erewrite bind_ok
        by (apply initialize_at; unfold_state; rewrite Hi'; assumption).
      rewrite bind_print, before_loop_eq.
      erewrite bind_raise by exact Hloop. reflexivity. }
  by rewrite bind_print.
Qed.

(** X19. A page whose section cannot be written ends the run, where a
    page whose extraction fails is only skipped: when the directory and
    the artifact are created, the agent answers for the first page, and
    opening the artifact for its section raises, [main] ends in
    [Done failed]. The artifact holds its header and nothing else, the
    agent has been called once (no later page is extracted), and the
    lines printed end with the extraction of that page and the error
    [Error during crawl: Failed to append to markdown file: <cause>]. *)
Theorem failed_append_ends_the_run (w : World) (agent : Agent) (st : State)
    (page : crawl4ai.CrawlResult) (rest : list crawl4ai.CrawlResult)
    (output : string) (e : exn) :
  arun w target_url main_config = Ok (page :: rest) →
  io_fault w (io_count st) = None →
  io_fault w (1 + io_count st) = None →
  io_fault w (2 + io_count st) = None →
  agent_run w (agent_calls st) (extraction_prompt page) = Ok output →
  io_fault w (3 + io_count st) = Some e →
  ∃ st',
    main w agent st = (Ok (Done failed), st')
    ∧ files st'
      = <[artifact_path w st := artifact_header w st (page :: rest)]> (files st)
    ∧ agent_calls st' = S (agent_calls st)
    ∧ io_count st' = 4 + io_count st
    ∧ printed (trace st')
      = printed (trace st) ++ banner
          ++ [crawled_line (page :: rest);
              "📄 Streaming results to: " +:+ artifact_path w st;
              extracting_line page;
              extracted_line page;
              "❌ Error during crawl: Failed to append to markdown file: "
                +:+ str_exn e].
Proof.
  intros Hcrawl H0 H1 H2 Hrun Hfault.
  destruct (before_loop_fields w (page :: rest) st) as (Hf & _ & Ha & _).
  destruct (before_loop_counts w (page :: rest) st) as (Hio & Hp).
  destruct (process_results_append_fault w agent {| output_dir := "out" |}
              (artifact_path w st) 1 page rest
              (before_loop w (page :: rest) st) output e)
    as (st1 & Hloop & Hf1 & Ha1 & Hio1 & Hp1).
  { by rewrite Ha. }
  { by rewrite Hio. }
  rewrite (main_loop_raise w agent (page :: rest) st st1 _ Hcrawl H0 H1 H2
             Hloop).
  eexists. split; [done|]. unfold_state.
  rewrite Hf1, Ha1, Hio1, Hf, Ha, Hio. repeat split; try done.
  rewrite printed_app, Hp1, Hp. cbn [printed].
  by rewrite <- !app_assoc.
Qed.

Lemma failed_append_ends_the_run_witness :
  ∃ st',
    main (faulty_world 3) the_agent fresh = (Ok (Done failed), st')
    ∧ files st'
      = <[artifact_path (faulty_world 3) fresh
          := artifact_header (faulty_world 3) fresh two_pages]> (files fresh)
    ∧ agent_calls st' = S (agent_calls fresh)
    ∧ io_count st' = 4 + io_count fresh
    ∧ printed (trace st')
      = printed (trace fresh) ++ banner
          ++ [crawled_line two_pages;
              "📄 Streaming results to: "
                +:+ artifact_path (faulty_world 3) fresh;
              extracting_line docs_page;
              extracted_line docs_page;
              "❌ Error during crawl: Failed to append to markdown file: "
                +:+ str_exn disk_full].
Proof.
  apply (failed_append_ends_the_run (faulty_world 3) the_agent fresh
           docs_page [guide_page] "extract" disk_full); reflexivity.
Defined.
